(** * TimeTable Pro: the generation flow, the form, the page and the text export

    A shallow embedding of

    - [src/ai/flows/generate-timetable.ts]: the input and output schemas,
      [generateTimetable] and the body of [generateTimetableFlow];
    - [src/components/timetable-form.tsx]: [formSchema];
    - [src/app/page.tsx]: [handleGenerateTimetable];
    - [src/components/timetable-display.tsx]: [convertToPlainText].

    The language model behind [prompt] is not part of the program: it is a
    variable of the development, a stateful oracle whose reply the flow
    receives and checks. *)

From Stdlib Require Import String Ascii.
From Stdlib Require Import List ZArith QArith Bool Lia NArith Arith.
Import ListNotations.

Local Open Scope list_scope.

(** ** JavaScript values used by the program *)

Module Js.

(** A JavaScript string is a sequence of UTF-16 code units. *)
Definition jsstring : Type := list N.

(** The string literals of the source are ASCII. *)
Definition lit (s : string) : jsstring :=
  map N_of_ascii (list_ascii_of_string s).

(** A string is falsy exactly when it is empty. *)
Definition truthy (s : jsstring) : bool :=
  match s with [] => false | _ :: _ => true end.

(** [s.padEnd(n, fill)]: [s] followed by [fill] repeated and truncated so
    that the result has [n] code units; [s] itself when it is already that
    long or when [fill] is empty. *)
Definition padEnd (s : jsstring) (n : nat) (fill : jsstring) : jsstring :=
  if (n <=? length s)%nat then s
  else match fill with
       | [] => s
       | _ :: _ => s ++ firstn (n - length s) (concat (repeat fill (n - length s)))
       end.

Definition space : jsstring := lit " ".

(** [s.startsWith(prefix)] and [s.includes(sub)] *)
Fixpoint startsWith (s prefix : jsstring) : bool :=
  match prefix, s with
  | [], _ => true
  | p :: prefix', c :: s' => N.eqb c p && startsWith s' prefix'
  | _ :: _, [] => false
  end.

Fixpoint includes (s sub : jsstring) : bool :=
  startsWith s sub
  || match s with
     | [] => false
     | _ :: s' => includes s' sub
     end.

(** [arr.join("")] *)
Definition join (l : list jsstring) : jsstring := concat l.

(** [s.split(",")] for a one-unit separator: never the empty array, the
    empty string gives one empty piece. *)
Fixpoint split (sep : N) (s : jsstring) : list jsstring :=
  match s with
  | [] => [[]]
  | c :: rest =>
      if N.eqb c sep then [] :: split sep rest
      else match split sep rest with
           | [] => [[c]]
           | piece :: pieces => (c :: piece) :: pieces
           end
  end.

(** WhiteSpace and LineTerminator code points of ECMAScript, the ones
    [trim] and [parseInt] strip. *)
Definition isWhiteSpace (c : N) : bool :=
  existsb (N.eqb c)
    [9; 10; 11; 12; 13; 32; 160; 5760; 8192; 8193; 8194; 8195; 8196; 8197;
     8198; 8199; 8200; 8201; 8202; 8232; 8233; 8239; 8287; 12288; 65279]%N.

Fixpoint trimStart (s : jsstring) : jsstring :=
  match s with
  | [] => []
  | c :: rest => if isWhiteSpace c then trimStart rest else s
  end.

(** A string that [trimStart] leaves alone: empty, or not starting with
    white space. *)
Definition starts_clean (s : jsstring) : bool :=
  match s with
  | [] => true
  | c :: _ => negb (isWhiteSpace c)
  end.

Definition trimEnd (s : jsstring) : jsstring := rev (trimStart (rev s)).

Definition trim (s : jsstring) : jsstring := trimEnd (trimStart s).

(** A JavaScript number, as far as this program tells numbers apart: NaN,
    the two infinities and the finite values. A finite value is kept as the
    exact rational it stands for. For the integers beyond [2^53] that
    [parseInt] can produce, the rounding to the nearest double is left out:
    it yields an integer of the same sign, and the program looks at nothing
    else. *)
Inductive number : Type :=
| NaN
| Infinity (negative : bool)
| Fin (q : Q).

Definition of_Z (z : Z) : number := Fin (inject_Z z).

Definition isNaN (n : number) : bool :=
  match n with NaN => true | _ => false end.

(** [a <= b] of JavaScript: false as soon as one side is NaN. *)
Definition le (a b : number) : bool :=
  match a, b with
  | NaN, _ | _, NaN => false
  | Infinity true, _ => true
  | _, Infinity false => true
  | Infinity false, _ => false
  | _, Infinity true => false
  | Fin x, Fin y => Qle_bool x y
  end.

(** [a < b] of JavaScript. *)
Definition lt (a b : number) : bool :=
  match a, b with
  | NaN, _ | _, NaN => false
  | _, Infinity true => false
  | Infinity false, _ => false
  | Infinity true, _ => true
  | _, Infinity false => true
  | Fin x, Fin y => negb (Qle_bool y x)
  end.

Definition ge (a b : number) : bool := le b a.
Definition gt (a b : number) : bool := lt b a.

(** [Number.isInteger]: a finite number without fractional part. *)
Definition isInteger (n : number) : bool :=
  match n with
  | Fin q => (Qnum q mod Zpos (Qden q) =? 0)%Z
  | _ => false
  end.

(** The Number value of a mathematical integer: magnitudes from
    [2^1024 - 2^970] on round to an infinity. *)
Definition Number_of_integer (z : Z) : number :=
  if (Z.abs z <? 2 ^ 1024 - 2 ^ 970)%Z then of_Z z else Infinity (z <? 0)%Z.

Definition isDigit (c : N) : bool := ((48 <=? c) && (c <=? 57))%N.

Fixpoint takeDigits (s : jsstring) : jsstring :=
  match s with
  | [] => []
  | c :: rest => if isDigit c then c :: takeDigits rest else []
  end.

(** The integer a digit string denotes in radix 10. *)
Definition mathInt (digits : jsstring) : Z :=
  fold_left (fun acc c => (10 * acc + (Z.of_N c - 48))%Z) digits 0%Z.

(** [parseInt(s, 10)]: leading white space is skipped, one sign is read,
    then the longest run of decimal digits; NaN when there is none. With
    radix 10 no [0x] prefix is recognised. *)
Definition parseInt (s : jsstring) : number :=
  let s1 := trimStart s in
  let '(sign, s2) :=
    match s1 with
    | c :: rest =>
        if N.eqb c 45 then ((-1)%Z, rest)
        else if N.eqb c 43 then (1%Z, rest)
        else (1%Z, s1)
    | [] => (1%Z, s1)
    end in
  match takeDigits s2 with
  | [] => NaN
  | digits => Number_of_integer (sign * mathInt digits)
  end.

End Js.

(** ** src/ai/flows/generate-timetable.ts *)

Module Flow.
Import Js.

(** [GenerateTimetableInput], the type inferred from the input schema. *)
Record GenerateTimetableInput : Type := {
  workingDays : number;
  classesPerDay : number;
  subjects : list jsstring;
  teachersPerSubject : list number;
  otherConstraints : option jsstring
}.

(** [z.number().int().positive()] *)
Definition int_positive (n : number) : bool := isInteger n && gt n (of_Z 0).

(** [z.number().int().nonnegative()] *)
Definition int_nonnegative (n : number) : bool := isInteger n && ge n (of_Z 0).

(** [GenerateTimetableInputSchema]: the field types are those of the
    record; what is left to check are the refinements. *)
Definition GenerateTimetableInputSchema (input : GenerateTimetableInput) : bool :=
  int_positive (workingDays input)
  && int_positive (classesPerDay input)
  && (1 <=? length (subjects input))%nat
  && forallb int_nonnegative (teachersPerSubject input).

(** A schedule cell: a string or [null]. *)
Definition cell : Type := option jsstring.

(** [GenerateTimetableOutput], the type inferred from the output schema. *)
Record GenerateTimetableOutput : Type := {
  days : list jsstring;
  periods : list jsstring;
  schedule : list (list cell)
}.

(** What the model hands back before anything is checked: a field may be
    missing and an element of [schedule] may be something else than an
    array (the flow tests both). *)
Inductive row : Type :=
| Array (cells : list cell)
| NotArray.

Record ModelOutput : Type := {
  out_days : option (list jsstring);
  out_periods : option (list jsstring);
  out_schedule : option (list row)
}.

Definition isArray (r : row) : bool :=
  match r with Array _ => true | NotArray => false end.

(** [row.length] of a row that is an array; a value that is not an array
    has no length that equals a number of days. *)
Definition row_length (r : row) : option nat :=
  match r with Array cells => Some (length cells) | NotArray => None end.

Fixpoint rows_of_schedule (rows : list row) : option (list (list cell)) :=
  match rows with
  | [] => Some []
  | Array cells :: rest =>
      match rows_of_schedule rest with
      | Some g => Some (cells :: g)
      | None => None
      end
  | NotArray :: _ => None
  end.

(** [GenerateTimetableOutputSchema], as a parser from the unchecked value
    to the typed one: the three fields are present and [schedule] is an
    array of arrays. *)
Definition GenerateTimetableOutputSchema (o : ModelOutput)
  : option GenerateTimetableOutput :=
  match out_days o, out_periods o, out_schedule o with
  | Some d, Some p, Some s =>
      match rows_of_schedule s with
      | Some g => Some {| days := d; periods := p; schedule := g |}
      | None => None
      end
  | _, _, _ => None
  end.

(** A typed output seen as an unchecked value again. *)
Definition untyped (t : GenerateTimetableOutput) : ModelOutput :=
  {| out_days := Some (days t);
     out_periods := Some (periods t);
     out_schedule := Some (map Array (schedule t)) |}.

(** What the checks of the flow are after: the unchecked value has its
    three fields, as many schedule rows as periods, and every row is an
    array with one cell per day. *)
Definition well_dimensioned (o : ModelOutput) : Prop :=
  exists ds ps sch,
    out_days o = Some ds /\ out_periods o = Some ps /\ out_schedule o = Some sch
    /\ length sch = length ps
    /\ Forall (fun r => row_length r = Some (length ds)) sch.

(** The errors the module throws, with the values their messages
    interpolate. *)
Inductive error : Type :=
| Mismatch
    (* "Mismatch between the number of subjects and teacher counts." *)
| InvalidInput
    (* the flow's input does not satisfy its inputSchema *)
| InvalidOutput
    (* the flow's result does not satisfy its outputSchema *)
| AIFailed
    (* 'AI failed to generate timetable data.' *)
| MissingFields
    (* 'AI output error: Missing days, periods, or schedule in the output.' *)
| RowsMismatch (rows nperiods : nat) (names : list jsstring)
    (* `AI output error: Schedule rows (..) do not match number of periods (..). Periods: ..` *)
| ColumnMismatch (invalidRowLength : option nat) (ndays : nat) (names : list jsstring)
    (* `AI output error: At least one schedule row's column count (..) does not match number of days (..). Days: ..` *)
| RowNotArray (i : nat)
    (* `AI output error: Schedule row at index .. is not an array.` *)
| RowLength (i len ndays : nat).
    (* `AI output error: Schedule row at index .. has .. columns, but expected .. (number of days).` *)

Inductive result (A : Type) : Type :=
| Ok (a : A)
| Err (e : error).
Arguments Ok {A} a.
Arguments Err {A} e.

Section WithModel.

(** The model: [prompt(input)] consults it, which may change its state, and
    yields [output], an unchecked value or [null]. *)
Variable ModelState : Type.
Variable prompt :
  GenerateTimetableInput -> ModelState -> option ModelOutput * ModelState.

(** An async function: run against the model, it resolves with a value or
    rejects with an error. *)
Definition Promise (A : Type) : Type := ModelState -> result A * ModelState.

Definition resolve {A} (a : A) : Promise A := fun st => (Ok a, st).
Definition throw {A} (e : error) : Promise A := fun st => (Err e, st).
Definition await {A B} (p : Promise A) (k : A -> Promise B) : Promise B :=
  fun st =>
    match p st with
    | (Ok a, st') => k a st'
    | (Err e, st') => (Err e, st')
    end.

Notation "x <- p ;; k" := (await p (fun x => k))
  (at level 61, p at next level, right associativity).

Definition call_prompt (input : GenerateTimetableInput)
  : Promise (option ModelOutput) :=
  fun st => let (output, st') := prompt input st in (Ok output, st').

(** [row => !Array.isArray(row) || row.length !== output.days.length] *)
Definition invalid_row (ndays : nat) (r : row) : bool :=
  negb (isArray r)
  || match row_length r with
     | Some n => negb (n =? ndays)%nat
     | None => true
     end.

(** The [for] loop over the rows, from index [i] on. *)
Fixpoint check_rows (rows : list row) (i ndays : nat) : result unit :=
  match rows with
  | [] => Ok tt
  | r :: rest =>
      match r with
      | NotArray => Err (RowNotArray i)
      | Array cells =>
          if negb (length cells =? ndays)%nat
          then Err (RowLength i (length cells) ndays)
          else check_rows rest (S i) ndays
      end
  end.

(** The function handed to [ai.defineFlow]. *)
Definition generateTimetableFlow_fn (input : GenerateTimetableInput)
  : Promise ModelOutput :=
  output <- call_prompt input ;;
  match output with
  | None => throw AIFailed
  | Some output =>
      match out_days output, out_periods output, out_schedule output with
      | Some days, Some periods, Some schedule =>
          if negb (length schedule =? length periods)%nat then
            throw (RowsMismatch (length schedule) (length periods) periods)
          else if (0 <? length schedule)%nat
                  && existsb (invalid_row (length days)) schedule then
            let firstInvalidRow := find (invalid_row (length days)) schedule in
            let invalidRowLength :=
              match firstInvalidRow with
              | Some r => row_length r
              | None => None
              end in
            throw (ColumnMismatch invalidRowLength (length days) days)
          else
            match check_rows schedule 0 (length days) with
            | Err e => throw e
            | Ok _ => resolve output
            end
      | _, _, _ => throw MissingFields
      end
  end.

(** [ai.defineFlow({inputSchema, outputSchema}, fn)]: the flow runs [fn]
    on an input that satisfies [inputSchema] and rejects any other; what
    [fn] resolves with is returned when it satisfies [outputSchema]. *)
Definition defineFlow {I O' O : Type}
  (inputSchema : I -> bool) (outputSchema : O' -> option O)
  (fn : I -> Promise O') (input : I) : Promise O :=
  if inputSchema input then
    o <- fn input ;;
    match outputSchema o with
    | Some t => resolve t
    | None => throw InvalidOutput
    end
  else throw InvalidInput.

Definition generateTimetableFlow
  : GenerateTimetableInput -> Promise GenerateTimetableOutput :=
  defineFlow GenerateTimetableInputSchema GenerateTimetableOutputSchema
    generateTimetableFlow_fn.

Definition generateTimetable (input : GenerateTimetableInput)
  : Promise GenerateTimetableOutput :=
  if negb (length (subjects input) =? length (teachersPerSubject input))%nat
  then throw Mismatch
  else generateTimetableFlow input.

End WithModel.

Arguments generateTimetableFlow_fn {ModelState} prompt input _.
Arguments generateTimetableFlow {ModelState} prompt _ _.
Arguments generateTimetable {ModelState} prompt input _.

End Flow.

(** ** src/components/timetable-display.tsx *)

Module Display.
Import Js Flow.

(** [arr.forEach((x, index) => ...)] whose callback updates a variable of
    the enclosing function: the variable is threaded through. *)
Fixpoint forEach {A T : Type} (f : A -> nat -> T -> T) (l : list A) (i : nat) (st : T) : T :=
  match l with
  | [] => st
  | a :: rest => forEach f rest (S i) (f a i st)
  end.

(** [data.schedule[periodIndex]?.[dayIndex]]: [None] is [undefined] (no
    such row, or no such column in it), [Some None] is [null]. *)
Definition schedule_at (data : GenerateTimetableOutput) (periodIndex dayIndex : nat)
  : option cell :=
  match nth_error (schedule data) periodIndex with
  | Some r => nth_error r dayIndex
  | None => None
  end.

(** [v || "Free"] *)
Definition or_Free (v : option cell) : jsstring :=
  match v with
  | Some (Some s) => if truthy s then s else lit "Free"
  | Some None => lit "Free"
  | None => lit "Free"
  end.

Definition newline : jsstring := [10%N].

Definition convertToPlainText (data : GenerateTimetableOutput) : jsstring :=
  let text := lit "Timetable" ++ newline ++ newline in
  let text :=
    text ++ (padEnd (lit "Period") 15 space
             ++ join (map (fun day => padEnd day 20 space) (days data))
             ++ newline) in
  let text :=
    text ++ (padEnd (lit "") 15 (lit "-")
             ++ join (map (fun _ => padEnd (lit "") 20 (lit "-")) (days data))
             ++ newline) in
  forEach
    (fun period periodIndex text =>
       let text := text ++ padEnd period 15 space in
       let text :=
         forEach
           (fun _ dayIndex text =>
              let entry := or_Free (schedule_at data periodIndex dayIndex) in
              text ++ padEnd entry 20 space)
           (days data) 0 text in
       text ++ newline)
    (periods data) 0 text.

End Display.

(** ** src/components/timetable-form.tsx *)

Module Form.
Import Js.

(** [TimetableFormValues]. The two numeric fields hold what
    [z.coerce.number()] made of the text typed in. *)
Record TimetableFormValues : Type := {
  workingDays : number;
  classesPerDay : number;
  subjects : jsstring;
  teachersPerSubject : jsstring;
  otherConstraints : option jsstring
}.

Definition comma : N := 44%N.

(** [z.coerce.number().int().positive().min(lo).max(hi)] *)
Definition int_in_range (lo hi : Z) (n : number) : bool :=
  negb (isNaN n) && isInteger n && gt n (of_Z 0)
  && ge n (of_Z lo) && le n (of_Z hi).

Definition formSchema (data : TimetableFormValues) : bool :=
  int_in_range 1 7 (workingDays data)
  && int_in_range 1 12 (classesPerDay data)
  && (1 <=? length (subjects data))%nat
  && forallb (fun s => (0 <? length s)%nat)
       (map trim (split comma (subjects data)))
  && (1 <=? length (teachersPerSubject data))%nat
  && (let counts := map (fun t => parseInt (trim t))
                      (split comma (teachersPerSubject data)) in
      forallb (fun count => negb (isNaN count) && ge count (of_Z 0)) counts)
  && (let counts := map (fun t => parseInt (trim t))
                      (split comma (teachersPerSubject data)) in
      forallb (fun count => ge count (of_Z 0)) counts)
  && (let subjectCount :=
        length (filter truthy (map trim (split comma (subjects data)))) in
      let teacherCount :=
        length (filter truthy (map trim (split comma (teachersPerSubject data)))) in
      (subjectCount =? teacherCount)%nat).

End Form.

(** ** src/app/page.tsx *)

Module Page.
Import Js.

Inductive toast : Type :=
| InputError
    (* 'The number of subjects must match the number of teacher counts provided.' *)
| ErrorGenerating (description : jsstring)
| TimetableGenerated
| InvalidStructure
    (* 'Received invalid timetable data structure from the AI.' *)
| UnexpectedError.

(** What [generateTimetableAction] resolves with. *)
Record ActionResult : Type := {
  error : option jsstring;
  data : option Flow.ModelOutput
}.

(** The state of [Home] and the toasts shown so far, oldest first. *)
Record PageState : Type := {
  timetableData : option Flow.ModelOutput;
  isLoading : bool;
  toasts : list toast
}.

Definition setIsLoading (b : bool) (st : PageState) : PageState :=
  {| timetableData := timetableData st; isLoading := b; toasts := toasts st |}.

Definition setTimetableData (d : option Flow.ModelOutput) (st : PageState) : PageState :=
  {| timetableData := d; isLoading := isLoading st; toasts := toasts st |}.

Definition show_toast (t : toast) (st : PageState) : PageState :=
  {| timetableData := timetableData st; isLoading := isLoading st;
     toasts := toasts st ++ [t] |}.

(** The object literal [input] of [handleGenerateTimetable]. *)
Definition build_input (values : Form.TimetableFormValues) : Flow.GenerateTimetableInput :=
  {| Flow.workingDays := Form.workingDays values;
     Flow.classesPerDay := Form.classesPerDay values;
     Flow.subjects :=
       filter truthy (map trim (split Form.comma (Form.subjects values)));
     Flow.teachersPerSubject :=
       filter (fun n => negb (isNaN n) && ge n (of_Z 0))
         (map (fun t => parseInt (trim t))
            (split Form.comma (Form.teachersPerSubject values)));
     Flow.otherConstraints :=
       Some match Form.otherConstraints values with
            | Some s => if truthy s then s else lit ""
            | None => lit ""
            end |}.

Section WithAction.

(** The server action is not among the sources: it is a variable, a call
    to a server with a state of its own that resolves with a result or
    rejects ([None]). *)
Variable Server : Type.
Variable generateTimetableAction :
  Flow.GenerateTimetableInput -> Server -> option ActionResult * Server.

Definition present {A} (o : option A) : bool :=
  match o with Some _ => true | None => false end.

(** [if (result.error)]: the field is there and is not the empty string. *)
Definition truthy_field (o : option jsstring) : option jsstring :=
  match o with
  | Some e => if truthy e then Some e else None
  | None => None
  end.

Definition handleGenerateTimetable (values : Form.TimetableFormValues)
  (st : PageState) (srv : Server) : PageState * Server :=
  let st := setIsLoading true st in
  let st := setTimetableData None st in
  let input := build_input values in
  if negb (length (Flow.subjects input) =? length (Flow.teachersPerSubject input))%nat
  then
    let st := show_toast InputError st in
    let st := setIsLoading false st in
    (* return, then the finally block *)
    (setIsLoading false st, srv)
  else
    let (outcome, srv) := generateTimetableAction input srv in
    let st :=
      match outcome with
      | Some result =>
          match truthy_field (error result) with
          | Some e =>
              setTimetableData None (show_toast (ErrorGenerating e) st)
          | None =>
              match data result with
              | Some d =>
                  if present (Flow.out_days d) && present (Flow.out_periods d)
                     && present (Flow.out_schedule d)
                  then show_toast TimetableGenerated (setTimetableData (Some d) st)
                  else setTimetableData None (show_toast InvalidStructure st)
              | None => st
              end
          end
      | None =>
          (* catch *)
          setTimetableData None (show_toast UnexpectedError st)
      end in
    (* finally *)
    (setIsLoading false st, srv).

End WithAction.

Arguments handleGenerateTimetable {Server} generateTimetableAction values st srv.

End Page.

(** ** The laws of the specification, on both forms of the output *)

Module Laws.
Import Js Flow.

(** Break placement: [periods[k] == label] and [schedule[k][d] == label]
    for every day index [d]. *)
Definition break_placed (label : jsstring) (k : nat) (t : GenerateTimetableOutput) : Prop :=
  nth_error (periods t) k = Some label
  /\ forall d, (d < length (days t))%nat ->
       Display.schedule_at t k d = Some (Some label).

(** The same, read off the reply of the model. *)
Definition reply_break_placed (label : jsstring) (k : nat) (o : ModelOutput) : Prop :=
  exists ds ps sch cells,
    out_days o = Some ds /\ out_periods o = Some ps /\ out_schedule o = Some sch
    /\ nth_error ps k = Some label
    /\ (forall d, (d < length ds)%nat ->
         nth_error sch k = Some (Array cells)
         /\ nth_error cells d = Some (Some label)).

(** A subject appears in a cell when the text of the cell contains its
    name. *)
Definition cell_mentions (subject : jsstring) (c : cell) : bool :=
  match c with
  | Some s => includes s subject
  | None => false
  end.

Definition subject_appears (subject : jsstring) (t : GenerateTimetableOutput) : bool :=
  existsb (existsb (cell_mentions subject)) (schedule t).

Definition reply_subject_appears (subject : jsstring) (o : ModelOutput) : bool :=
  match out_schedule o with
  | Some sch =>
      existsb (fun r => match r with
                        | Array cells => existsb (cell_mentions subject) cells
                        | NotArray => false
                        end) sch
  | None => false
  end.

(** The export as the specification describes it: three heading lines (title and
    blank line, header, separator), then one line per period, each made of
    the period label, one cell per day and a line break. *)
Fixpoint mapi {A B : Type} (g : A -> nat -> B) (l : list A) (i : nat) : list B :=
  match l with
  | [] => []
  | a :: rest => g a i :: mapi g rest (S i)
  end.

Definition heading (data : GenerateTimetableOutput) : jsstring :=
  (lit "Timetable" ++ Display.newline ++ Display.newline)
  ++ (padEnd (lit "Period") 15 space
      ++ concat (map (fun day => padEnd day 20 space) (days data))
      ++ Display.newline)
  ++ (padEnd (lit "") 15 (lit "-")
      ++ concat (map (fun _ => padEnd (lit "") 20 (lit "-")) (days data))
      ++ Display.newline).

Definition cells_of (data : GenerateTimetableOutput) (periodIndex : nat) : list jsstring :=
  mapi (fun _ dayIndex =>
          padEnd (Display.or_Free (Display.schedule_at data periodIndex dayIndex))
            20 space)
       (days data) 0.

Definition schedule_lines (data : GenerateTimetableOutput) : list jsstring :=
  mapi (fun period periodIndex =>
          padEnd period 15 space ++ concat (cells_of data periodIndex)
          ++ Display.newline)
       (periods data) 0.

(** A cell the export shows as free: [undefined], [null] or the empty
    string. *)
Definition is_free (v : option cell) : Prop :=
  v = None \/ v = Some None \/ v = Some (Some []).

(** The number of line breaks in a text. *)
Definition line_breaks (text : jsstring) : nat := count_occ N.eq_dec text 10%N.

Definition no_line_break (text : jsstring) : Prop := line_breaks text = 0%nat.

(** The strings of a timetable have no line break of their own. *)
Definition single_line_names (data : GenerateTimetableOutput) : Prop :=
  (forall day, In day (days data) -> no_line_break day)
  /\ (forall period, In period (periods data) -> no_line_break period)
  /\ (forall r s, In r (schedule data) -> In (Some s) r -> no_line_break s).

End Laws.

(** ** src/components/timetable-display.tsx: what the component renders *)

Module Table.
Import Js Flow.

(** [arr.join(sep)] *)
Fixpoint join_with (sep : jsstring) (l : list jsstring) : jsstring :=
  match l with
  | [] => []
  | [x] => x
  | x :: (_ :: _) as rest => x ++ sep ++ join_with sep rest
  end.

(** The content of a table cell: the text of the entry, or the italic
    [Free] span. *)
Inductive cell_view : Type :=
| Text (s : jsstring)
| FreeSpan.

(** [schedule[periodIndex]?.[dayIndex] || <span ...>Free</span>] *)
Definition or_FreeSpan (v : option cell) : cell_view :=
  match v with
  | Some (Some s) => if truthy s then Text s else FreeSpan
  | Some None => FreeSpan
  | None => FreeSpan
  end.

(** What [TimetableDisplay] returns: the card that reports incomplete
    data, or the card with the table: the day headings after the "Period"
    heading, and one row per period with its heading and its cells. *)
Inductive view : Type :=
| ErrorCard
| TableCard (head : list jsstring) (body : list (jsstring * list cell_view)).

Definition TimetableDisplay (timetableData : GenerateTimetableOutput) : view :=
  let days := days timetableData in
  let periods := periods timetableData in
  let schedule := schedule timetableData in
  if negb (0 <? length days)%nat || negb (0 <? length periods)%nat
     || negb (0 <? length schedule)%nat
  then ErrorCard
  else
    TableCard
      (map (fun day => day) days)
      (Laws.mapi
         (fun period periodIndex =>
            (period,
             Laws.mapi
               (fun _ dayIndex =>
                  or_FreeSpan (Display.schedule_at timetableData periodIndex dayIndex))
               days 0))
         periods 0).

(** The text a table cell shows. *)
Definition shown (c : cell_view) : jsstring :=
  match c with
  | Text s => s
  | FreeSpan => lit "Free"
  end.

(** The strings of a timetable fit their columns in the text export. *)
Definition fits_columns (data : GenerateTimetableOutput) : Prop :=
  (forall day, In day (Flow.days data) -> (length day <= 20)%nat)
  /\ (forall period, In period (Flow.periods data) -> (length period <= 15)%nat)
  /\ (forall r s, In r (Flow.schedule data) -> In (Some s) r -> (length s <= 20)%nat).

End Table.

(** ** Sample inputs and model replies *)

Module Samples.
Import Js Flow.

Definition str (s : string) : cell := Some (lit s).

(** Two working days, four classes a day, lunch asked for after the third. *)
Definition lunch_input : GenerateTimetableInput :=
  {| workingDays := of_Z 2;
     classesPerDay := of_Z 4;
     subjects := [lit "Math"; lit "Art"];
     teachersPerSubject := [of_Z 2; of_Z 1];
     otherConstraints := Some (lit "Lunch break after period 3") |}.

Definition lunch_timetable : GenerateTimetableOutput :=
  {| days := [lit "Monday"; lit "Tuesday"];
     periods := [lit "Period 1"; lit "Period 2"; lit "Period 3"; lit "Lunch";
                 lit "Period 4"];
     schedule :=
       [[str "Math - Teacher 1"; str "Art - Teacher 1"];
        [str "Art - Teacher 1"; str "Math - Teacher 2"];
        [str "Math - Teacher 2"; None];
        [str "Lunch"; str "Lunch"];
        [str "Art - Teacher 1"; str "Math - Teacher 1"]] |}.

(** A reply of the right shape that has no lunch row. *)
Definition no_lunch_timetable : GenerateTimetableOutput :=
  {| days := [lit "Monday"; lit "Tuesday"];
     periods := [lit "Period 1"; lit "Period 2"; lit "Period 3"; lit "Period 4"];
     schedule :=
       [[str "Math - Teacher 1"; str "Art - Teacher 1"];
        [str "Art - Teacher 1"; str "Math - Teacher 2"];
        [str "Math - Teacher 2"; None];
        [str "Art - Teacher 1"; str "Math - Teacher 1"]] |}.

(** A reply of consistent shape with a single day. *)
Definition one_day_timetable : GenerateTimetableOutput :=
  {| days := [lit "Monday"];
     periods := [lit "Period 1"; lit "Period 2"];
     schedule := [[str "Math - Teacher 1"]; [str "Art - Teacher 1"]] |}.

(** A reply whose second row is one cell short. *)
Definition ragged_output : ModelOutput :=
  {| out_days := Some [lit "Monday"; lit "Tuesday"];
     out_periods := Some [lit "Period 1"; lit "Period 2"];
     out_schedule :=
       Some [Array [str "Math - Teacher 1"; str "Art - Teacher 1"];
             Array [str "Art - Teacher 1"]] |}.

(** One subject, nobody to teach it. *)
Definition no_teacher_input : GenerateTimetableInput :=
  {| workingDays := of_Z 1;
     classesPerDay := of_Z 1;
     subjects := [lit "X"];
     teachersPerSubject := [of_Z 0];
     otherConstraints := None |}.

Definition x_timetable : GenerateTimetableOutput :=
  {| days := [lit "Monday"];
     periods := [lit "Period 1"];
     schedule := [[str "X - Teacher 1"]] |}.

(** Models whose state counts the calls made to them. *)
Definition steady_model (reply : option ModelOutput)
  : GenerateTimetableInput -> nat -> option ModelOutput * nat :=
  fun _ calls => (reply, S calls).

(** A model that answers its first call with one timetable and every later
    call with another. *)
Definition changing_model
  : GenerateTimetableInput -> nat -> option ModelOutput * nat :=
  fun _ calls =>
    (Some (untyped match calls with
                   | O => lunch_timetable
                   | S _ => no_lunch_timetable
                   end),
     S calls).

(** One day, two periods, the second one free. *)
Definition free_period_timetable : GenerateTimetableOutput :=
  {| days := [lit "Monday"];
     periods := [lit "Period 1"; lit "Period 2"];
     schedule := [[str "Math - Teacher 1"]; [None]] |}.

(** A server that records the inputs it is called with and rejects. *)
Definition recording_action
  : GenerateTimetableInput -> list GenerateTimetableInput
    -> option Page.ActionResult * list GenerateTimetableInput :=
  fun input calls => (None, calls ++ [input]).

Definition fresh_page : Page.PageState :=
  {| Page.timetableData := None; Page.isLoading := false; Page.toasts := [] |}.

(** A form filled in with one subject and, for its teachers, a 1 followed
    by 309 zeros. *)
Definition huge_count_values : Form.TimetableFormValues :=
  {| Form.workingDays := of_Z 5;
     Form.classesPerDay := of_Z 6;
     Form.subjects := lit "Math";
     Form.teachersPerSubject := 49%N :: repeat 48%N 309;
     Form.otherConstraints := None |}.

(** A form filled in with padded names and counts. *)
Definition padded_values : Form.TimetableFormValues :=
  {| Form.workingDays := of_Z 5;
     Form.classesPerDay := of_Z 6;
     Form.subjects := lit " Math , Art";
     Form.teachersPerSubject := lit "2, 1 ";
     Form.otherConstraints := None |}.

(** Two subjects, one count. *)
Definition short_values : Form.TimetableFormValues :=
  {| Form.workingDays := of_Z 5;
     Form.classesPerDay := of_Z 6;
     Form.subjects := lit "Math,Art";
     Form.teachersPerSubject := lit "2";
     Form.otherConstraints := None |}.

End Samples.

(** ** More sample replies and form values *)

Module MoreSamples.
Import Js Flow.

(** A reply with one period name for two schedule rows. *)
Definition short_periods_output : ModelOutput :=
  {| out_days := Some [lit "Monday"];
     out_periods := Some [lit "Period 1"];
     out_schedule :=
       Some [Array [Samples.str "Math - Teacher 1"];
             Array [Samples.str "Art - Teacher 1"]] |}.

(** A reply without periods and without rows, for two days. *)
Definition empty_timetable : GenerateTimetableOutput :=
  {| days := [lit "Monday"; lit "Tuesday"]; periods := []; schedule := [] |}.

(** Counts followed by words and by a fraction. *)
Definition wordy_values : Form.TimetableFormValues :=
  {| Form.workingDays := of_Z 5;
     Form.classesPerDay := of_Z 6;
     Form.subjects := lit "Math, Art";
     Form.teachersPerSubject := lit "2 teachers, 1.5";
     Form.otherConstraints := None |}.

(** A server that resolves with an empty result. *)
Definition silent_action
  : GenerateTimetableInput -> nat -> option Page.ActionResult * nat :=
  fun _ calls => (Some {| Page.error := None; Page.data := None |}, S calls).

(** A server that resolves with a given timetable. *)
Definition answering_action (t : GenerateTimetableOutput)
  : GenerateTimetableInput -> nat -> option Page.ActionResult * nat :=
  fun _ calls =>
    (Some {| Page.error := None; Page.data := Some (untyped t) |}, S calls).

End MoreSamples.

(** * Properties *)

(** ** The dimension checks of the flow *)

Module FlowFacts.
Import Js Flow.

Lemma invalid_row_false (n : nat) (r : row) :
  invalid_row n r = false <-> row_length r = Some n.
Proof.
  destruct r as [cells|]; unfold invalid_row; simpl.
  - rewrite negb_false_iff, Nat.eqb_eq. split; congruence.
  - split; discriminate.
Qed.

Lemma existsb_invalid_row_false (n : nat) (rows : list row) :
  existsb (invalid_row n) rows = false
  <-> Forall (fun r => row_length r = Some n) rows.
Proof.
  induction rows as [|r rows IH]; simpl.
  - split; auto.
  - rewrite orb_false_iff, invalid_row_false, IH. split.
    + intros [H1 H2]. constructor; assumption.
    + intros H. inversion H; subst. split; assumption.
Qed.

Lemma check_rows_ok (rows : list row) (i n : nat) :
  check_rows rows i n = Ok tt
  <-> Forall (fun r => row_length r = Some n) rows.
Proof.
  revert i. induction rows as [|r rows IH]; intros i; simpl.
  - split; auto.
  - destruct r as [cells|]; simpl.
    + destruct (Nat.eqb_spec (length cells) n) as [E|E]; simpl.
      * rewrite IH. split.
        -- intros H. constructor; [simpl; congruence|assumption].
        -- intros H. now inversion H.
      * split; [discriminate|].
        intros H. inversion H as [|? ? H1 H2]; subst. simpl in H1. congruence.
    + split; [discriminate|].
      intros H. inversion H as [|? ? H1 H2]; subst. discriminate.
Qed.


Lemma rows_of_schedule_Some (rows : list row) (g : list (list cell)) :
  rows_of_schedule rows = Some g <-> rows = map Array g.
Proof.
  revert g. induction rows as [|r rows IH]; intros g; simpl.
  - split.
    + intros H. injection H as <-. reflexivity.
    + destruct g; [reflexivity|discriminate].
  - destruct r as [cells|].
    + destruct (rows_of_schedule rows) as [g'|] eqn:E.
      * split.
        -- intros H. injection H as <-. simpl. f_equal. now apply IH.
        -- destruct g as [|c g]; [discriminate|]. simpl. intros H.
           injection H as -> H. apply IH in H. congruence.
      * split; [discriminate|].
        destruct g as [|c g]; [discriminate|]. simpl. intros H.
        injection H as _ H. apply IH in H. discriminate.
    + split; [discriminate|]. destruct g; discriminate.
Qed.

Lemma Forall_row_length_arrays (n : nat) (rows : list row) :
  Forall (fun r => row_length r = Some n) rows ->
  exists g, rows = map Array g /\ Forall (fun cells => length cells = n) g.
Proof.
  induction 1 as [|r rows Hr _ [g [-> Hg]]].
  - exists []. split; [reflexivity|constructor].
  - destruct r as [cells|]; [|discriminate]. simpl in Hr.
    exists (cells :: g). split; [reflexivity|]. constructor; congruence.
Qed.

Lemma Forall_row_length_map_Array (n : nat) (g : list (list cell)) :
  Forall (fun r => row_length r = Some n) (map Array g)
  <-> Forall (fun cells => length cells = n) g.
Proof.
  rewrite Forall_map. simpl. split; apply Forall_impl; intros; congruence.
Qed.

(** The output schema accepts every well-dimensioned value, and the typed
    value it yields is the value itself. *)
Lemma GenerateTimetableOutputSchema_Some (o : ModelOutput) (t : GenerateTimetableOutput) :
  GenerateTimetableOutputSchema o = Some t <-> o = untyped t.
Proof.
  unfold GenerateTimetableOutputSchema, untyped. destruct o as [d p s]; simpl.
  split.
  - destruct d as [d|]; [|discriminate]. destruct p as [p|]; [|destruct s; discriminate].
    destruct s as [s|]; [|discriminate].
    destruct (rows_of_schedule s) as [g|] eqn:E; [|discriminate].
    intros H. injection H as <-. simpl. apply rows_of_schedule_Some in E. now subst.
  - intros H. injection H as -> -> ->.
    assert (E : rows_of_schedule (map Array (schedule t)) = Some (schedule t))
      by now apply rows_of_schedule_Some.
    rewrite E. now destruct t.
Qed.

Lemma well_dimensioned_untyped (t : GenerateTimetableOutput) :
  well_dimensioned (untyped t)
  <-> length (schedule t) = length (periods t)
      /\ Forall (fun cells => length cells = length (days t)) (schedule t).
Proof.
  unfold well_dimensioned, untyped; simpl. split.
  - intros (ds & ps & sch & Hd & Hp & Hs & Hlen & Hrows).
    injection Hd as <-. injection Hp as <-. injection Hs as <-.
    rewrite length_map in Hlen. split; [assumption|].
    now apply Forall_row_length_map_Array.
  - intros [Hlen Hrows]. exists (days t), (periods t), (map Array (schedule t)).
    repeat split; [now rewrite length_map|now apply Forall_row_length_map_Array].
Qed.

Lemma well_dimensioned_typed (o : ModelOutput) :
  well_dimensioned o -> exists t, o = untyped t.
Proof.
  intros (ds & ps & sch & Hd & Hp & Hs & _ & Hrows).
  destruct (Forall_row_length_arrays _ _ Hrows) as [g [-> _]].
  exists {| days := ds; periods := ps; schedule := g |}.
  destruct o; simpl in *. unfold untyped; simpl. congruence.
Qed.

Section WithModel.

Variable ModelState : Type.
Variable prompt :
  GenerateTimetableInput -> ModelState -> option ModelOutput * ModelState.

(** The function of the flow consults the model exactly once, whatever it
    does with the reply. *)
Lemma generateTimetableFlow_fn_state (input : GenerateTimetableInput) (st : ModelState) :
  snd (generateTimetableFlow_fn prompt input st) = snd (prompt input st).
Proof.
  unfold generateTimetableFlow_fn, await, call_prompt.
  destruct (prompt input st) as [[o|] st1]; simpl; [|reflexivity].
  destruct (out_days o), (out_periods o), (out_schedule o) as [sch|]; try reflexivity.
  destruct (negb _); [reflexivity|].
  destruct (_ && _); [reflexivity|].
  destruct (check_rows _ _ _); reflexivity.
Qed.

Lemma generateTimetableFlow_fn_Ok_inv input st o st' :
  generateTimetableFlow_fn prompt input st = (Ok o, st') ->
  prompt input st = (Some o, st') /\ well_dimensioned o.
Proof.
  unfold generateTimetableFlow_fn, await, call_prompt.
  destruct (prompt input st) as [[o1|] st1]; simpl; [|discriminate].
  destruct (out_days o1) as [ds|] eqn:Hd; [|destruct (out_periods o1), (out_schedule o1); discriminate].
  destruct (out_periods o1) as [ps|] eqn:Hp; [|destruct (out_schedule o1); discriminate].
  destruct (out_schedule o1) as [sch|] eqn:Hs; [|discriminate].
  destruct (Nat.eqb_spec (length sch) (length ps)) as [Hlen|]; simpl; [|discriminate].
  destruct ((0 <? length sch)%nat && _); [discriminate|].
  destruct (check_rows sch 0 (length ds)) as [[]|e] eqn:Hrows; [|discriminate].
  unfold resolve. intros H. injection H as <- <-.
  split; [reflexivity|].
  exists ds, ps, sch. repeat split; try assumption. now apply (check_rows_ok sch 0).
Qed.

Lemma generateTimetableFlow_fn_Ok_intro input st o st' :
  prompt input st = (Some o, st') -> well_dimensioned o ->
  generateTimetableFlow_fn prompt input st = (Ok o, st').
Proof.
  intros Hp (ds & ps & sch & Hd & Hps & Hs & Hlen & Hrows).
  unfold generateTimetableFlow_fn, await, call_prompt.
  rewrite Hp; simpl. rewrite Hd, Hps, Hs.
  rewrite (proj2 (Nat.eqb_eq _ _) Hlen); simpl.
  rewrite (proj2 (existsb_invalid_row_false _ _) Hrows), andb_false_r.
  rewrite (proj2 (check_rows_ok sch 0 (length ds)) Hrows). reflexivity.
Qed.

(** When [generateTimetable] resolves, the input passed both gates, the
    model was consulted once, and its reply is the value returned. *)
Lemma generateTimetable_Ok_inv input st t st' :
  generateTimetable prompt input st = (Ok t, st') ->
  length (subjects input) = length (teachersPerSubject input)
  /\ GenerateTimetableInputSchema input = true
  /\ prompt input st = (Some (untyped t), st')
  /\ well_dimensioned (untyped t).
Proof.
  unfold generateTimetable, generateTimetableFlow, defineFlow.
  destruct (Nat.eqb_spec (length (subjects input)) (length (teachersPerSubject input)))
    as [Hlen|]; simpl; [|discriminate].
  destruct (GenerateTimetableInputSchema input); [|discriminate].
  unfold await.
  destruct (generateTimetableFlow_fn prompt input st) as [[o|e] st1] eqn:Hfn; [|discriminate].
  destruct (GenerateTimetableOutputSchema o) as [t'|] eqn:Hschema; [|discriminate].
  unfold resolve. intros H. injection H as <- <-.
  apply GenerateTimetableOutputSchema_Some in Hschema. subst o.
  apply generateTimetableFlow_fn_Ok_inv in Hfn. tauto.
Qed.

Lemma generateTimetable_Ok_intro input st t st' :
  length (subjects input) = length (teachersPerSubject input) ->
  GenerateTimetableInputSchema input = true ->
  prompt input st = (Some (untyped t), st') ->
  well_dimensioned (untyped t) ->
  generateTimetable prompt input st = (Ok t, st').
Proof.
  intros Hlen Hin Hp Hwd.
  unfold generateTimetable, generateTimetableFlow, defineFlow.
  rewrite (proj2 (Nat.eqb_eq _ _) Hlen), Hin; simpl.
  unfold await. rewrite (generateTimetableFlow_fn_Ok_intro _ _ _ _ Hp Hwd).
  rewrite (proj2 (GenerateTimetableOutputSchema_Some _ _) eq_refl). reflexivity.
Qed.

End WithModel.

End FlowFacts.

(** ** What the generation call guarantees *)

Module GenerationLaws.
Import Js Flow FlowFacts.

Lemma Forall_nth_error {A} (P : A -> Prop) (l : list A) :
  Forall P l <-> forall i a, nth_error l i = Some a -> P a.
Proof.
  rewrite Forall_forall. split.
  - intros H i a Hi. apply H. eapply nth_error_In; eassumption.
  - intros H a Ha. destruct (In_nth_error _ _ Ha) as [i Hi]. eauto.
Qed.

(** A call either resolves or rejects, and a call that found the input
    inadmissible leaves the model alone. *)
Lemma generateTimetable_Err_or_Ok
  (ModelState : Type)
  (prompt : GenerateTimetableInput -> ModelState -> option ModelOutput * ModelState)
  (input : GenerateTimetableInput) (st : ModelState) :
  (exists t, generateTimetable prompt input st = (Ok t, snd (prompt input st)))
  \/ (exists e st', generateTimetable prompt input st = (Err e, st')).
Proof.
  destruct (generateTimetable prompt input st) as [[t|e] st'] eqn:H.
  - left. exists t. apply generateTimetable_Ok_inv in H.
    destruct H as (_ & _ & H & _). now rewrite H.
  - right. eauto.
Qed.

(** C1: whenever generation succeeds, the returned output has as many
    schedule rows as periods and every row has as many cells as there are
    days; a reply of the model that violates either dimension (or lacks a
    field, or has a row that is not an array) is never returned: the call
    rejects instead. *)
Theorem generateTimetable_dimensions
  (ModelState : Type)
  (prompt : GenerateTimetableInput -> ModelState -> option ModelOutput * ModelState)
  (input : GenerateTimetableInput) (st : ModelState) :
  (forall out st',
      generateTimetable prompt input st = (Ok out, st') ->
      length (schedule out) = length (periods out)
      /\ forall i r, nth_error (schedule out) i = Some r ->
                     length r = length (days out))
  /\ (forall o st',
         prompt input st = (Some o, st') ->
         ~ well_dimensioned o ->
         exists e st'', generateTimetable prompt input st = (Err e, st'')).
Proof.
  split.
  - intros out st' H. apply generateTimetable_Ok_inv in H.
    destruct H as (_ & _ & _ & Hwd). apply well_dimensioned_untyped in Hwd.
    destruct Hwd as [Hlen Hrows]. split; [assumption|].
    now apply Forall_nth_error.
  - intros o st' Hp Hbad.
    destruct (generateTimetable prompt input st) as [[t|e] st''] eqn:H; [|eauto].
    apply generateTimetable_Ok_inv in H. destruct H as (_ & _ & Hp' & Hwd).
    rewrite Hp in Hp'. injection Hp' as -> _. contradiction.
Qed.

(** Both halves of [generateTimetable_dimensions] at work: a reply of the
    right shape comes back, a ragged one makes the call reject. *)
Lemma generateTimetable_dimensions_witness :
  (length (schedule Samples.lunch_timetable) = length (periods Samples.lunch_timetable)
   /\ forall i r, nth_error (schedule Samples.lunch_timetable) i = Some r ->
                  length r = length (days Samples.lunch_timetable))
  /\ exists e st'',
      generateTimetable (Samples.steady_model (Some Samples.ragged_output))
        Samples.lunch_input 0%nat = (Err e, st'').
Proof.
  split.
  - apply (proj1 (generateTimetable_dimensions nat
                    (Samples.steady_model (Some (untyped Samples.lunch_timetable)))
                    Samples.lunch_input 0%nat) Samples.lunch_timetable 1%nat).
    vm_compute. reflexivity.
  - apply (proj2 (generateTimetable_dimensions nat
                    (Samples.steady_model (Some Samples.ragged_output))
                    Samples.lunch_input 0%nat) Samples.ragged_output 1%nat).
    + reflexivity.
    + intros (ds & ps & sch & Hd & Hp & Hs & _ & Hrows).
      vm_compute in Hd, Hs. injection Hd as <-. injection Hs as <-.
      inversion Hrows as [|? ? _ Hrest]; subst.
      inversion Hrest as [|? ? Hrow _]; subst. vm_compute in Hrow. discriminate.
Defined.

(** C10: when the reply of the model is not null and passes every
    dimension check, the function of the flow resolves with that very
    value, and the flow returns it as it is: the typed result, read as a
    plain value again, is the reply. *)
Theorem generateTimetableFlow_returns_output_unchanged
  (ModelState : Type)
  (prompt : GenerateTimetableInput -> ModelState -> option ModelOutput * ModelState)
  (input : GenerateTimetableInput) (st : ModelState)
  (output : ModelOutput) (st' : ModelState)
  (Hreply : prompt input st = (Some output, st'))
  (Hchecks : well_dimensioned output) :
  generateTimetableFlow_fn prompt input st = (Ok output, st')
  /\ (GenerateTimetableInputSchema input = true ->
      exists t, generateTimetableFlow prompt input st = (Ok t, st')
                /\ untyped t = output).
Proof.
  split.
  - now apply generateTimetableFlow_fn_Ok_intro.
  - intros Hin. destruct (well_dimensioned_typed _ Hchecks) as [t ->].
    exists t. split; [|reflexivity].
    unfold generateTimetableFlow, defineFlow, await. rewrite Hin.
    rewrite (generateTimetableFlow_fn_Ok_intro _ _ _ _ _ _ Hreply Hchecks).
    now rewrite (proj2 (GenerateTimetableOutputSchema_Some _ _) eq_refl).
Qed.

Lemma generateTimetableFlow_returns_output_unchanged_witness :
  generateTimetableFlow_fn
    (Samples.steady_model (Some (untyped Samples.lunch_timetable)))
    Samples.lunch_input 0%nat
  = (Ok (untyped Samples.lunch_timetable), 1%nat)
  /\ (GenerateTimetableInputSchema Samples.lunch_input = true ->
      exists t,
        generateTimetableFlow
          (Samples.steady_model (Some (untyped Samples.lunch_timetable)))
          Samples.lunch_input 0%nat = (Ok t, 1%nat)
        /\ untyped t = untyped Samples.lunch_timetable).
Proof.
  apply (generateTimetableFlow_returns_output_unchanged nat
           (Samples.steady_model (Some (untyped Samples.lunch_timetable)))
           Samples.lunch_input 0%nat (untyped Samples.lunch_timetable) 1%nat).
  - reflexivity.
  - apply well_dimensioned_untyped. split; [reflexivity|].
    repeat constructor.
Defined.

(** A finite number below 1 is not a positive integer. *)
Lemma int_positive_below_one (n : number) :
  lt n (of_Z 1) = true -> int_positive n = false.
Proof.
  unfold int_positive, gt. destruct n as [|b|q]; simpl; try reflexivity.
  unfold Qle_bool; simpl. rewrite negb_true_iff, Z.leb_gt.
  intros Hlt. apply andb_false_iff.
  destruct (Z.eqb_spec (Qnum q mod Z.pos (Qden q)) 0) as [Hmod|]; [right|now left].
  rewrite negb_false_iff, Z.leb_le.
  destruct (Z_le_gt_dec (Qnum q * 1) 0) as [|Hpos]; [lia|exfalso].
  rewrite Z.mod_small in Hmod by lia. lia.
Qed.

Lemma GenerateTimetableInputSchema_workingDays (input : GenerateTimetableInput) :
  lt (workingDays input) (of_Z 1) = true ->
  GenerateTimetableInputSchema input = false.
Proof.
  intros H. unfold GenerateTimetableInputSchema.
  now rewrite (int_positive_below_one _ H).
Qed.

(** The outcome of a call depends on the model through its reply alone. *)
Lemma generateTimetable_outcome
  (ModelState : Type)
  (prompt : GenerateTimetableInput -> ModelState -> option ModelOutput * ModelState)
  (input : GenerateTimetableInput) (st : ModelState) :
  fst (generateTimetable prompt input st)
  = fst (generateTimetable (Samples.steady_model (fst (prompt input st))) input 0%nat).
Proof.
  unfold generateTimetable, generateTimetableFlow, defineFlow.
  destruct (negb _); [reflexivity|].
  destruct (GenerateTimetableInputSchema input); [|reflexivity].
  unfold await, generateTimetableFlow_fn, await, call_prompt, Samples.steady_model.
  destruct (prompt input st) as [[o|] st1]; simpl; [|reflexivity].
  destruct (out_days o), (out_periods o), (out_schedule o) as [sch|]; try reflexivity.
  destruct (negb _); [reflexivity|].
  destruct (_ && _); [reflexivity|].
  destruct (check_rows _ _ _); [|reflexivity].
  simpl. destruct (GenerateTimetableOutputSchema o); reflexivity.
Qed.

(** C2, as the code has it: [generateTimetable] adds nothing of its own to
    what the model does. Two invocations with identical input, to which the
    model gives identical replies, have identical outcomes: the same
    timetable or the same error. *)
Theorem generateTimetable_deterministic_in_reply
  (ModelState1 ModelState2 : Type)
  (prompt1 : GenerateTimetableInput -> ModelState1 -> option ModelOutput * ModelState1)
  (prompt2 : GenerateTimetableInput -> ModelState2 -> option ModelOutput * ModelState2)
  (input : GenerateTimetableInput) (st1 : ModelState1) (st2 : ModelState2)
  (Hreply : fst (prompt1 input st1) = fst (prompt2 input st2)) :
  fst (generateTimetable prompt1 input st1) = fst (generateTimetable prompt2 input st2).
Proof.
  rewrite (generateTimetable_outcome _ prompt1), (generateTimetable_outcome _ prompt2).
  now rewrite Hreply.
Qed.

Lemma generateTimetable_deterministic_in_reply_witness :
  fst (generateTimetable Samples.changing_model Samples.lunch_input 0%nat)
  = fst (generateTimetable
           (Samples.steady_model (Some (untyped Samples.lunch_timetable)))
           Samples.lunch_input 7%nat).
Proof.
  apply (generateTimetable_deterministic_in_reply nat nat
           Samples.changing_model
           (Samples.steady_model (Some (untyped Samples.lunch_timetable)))
           Samples.lunch_input 0%nat 7%nat).
  reflexivity.
Defined.

(** C2, as the specification states it, fails: the same input submitted twice to a
    model that changes its mind yields two different timetables. *)
Lemma generateTimetable_not_deterministic :
  let first := generateTimetable Samples.changing_model Samples.lunch_input 0%nat in
  let second := generateTimetable Samples.changing_model Samples.lunch_input (snd first) in
  fst first = Ok Samples.lunch_timetable
  /\ fst second = Ok Samples.no_lunch_timetable
  /\ fst first <> fst second.
Proof.
  vm_compute. repeat split. discriminate.
Qed.

(** C4 fails on the code: the flow compares the rows with [periods] and the
    columns with [days], never [days] with [workingDays]. Asked for two
    working days, it returns a timetable of one day. *)
Theorem generateTimetable_days_unchecked :
  generateTimetable
    (Samples.steady_model (Some (untyped Samples.one_day_timetable)))
    Samples.lunch_input 0%nat
  = (Ok Samples.one_day_timetable, 1%nat)
  /\ workingDays Samples.lunch_input = of_Z 2
  /\ length (days Samples.one_day_timetable) = 1%nat.
Proof.
  vm_compute. repeat split.
Qed.

(** C5: with [workingDays] below 1 (0 in particular) the call fails and
    produces no schedule, whatever the model would have said: the input
    schema of the flow rejects the input, unless the length check has
    rejected it already; the model is not consulted. The schema of the form
    refuses such a value too. *)
Theorem generateTimetable_rejects_workingDays_below_one
  (ModelState : Type)
  (prompt : GenerateTimetableInput -> ModelState -> option ModelOutput * ModelState)
  (input : GenerateTimetableInput) (st : ModelState)
  (Hwd : lt (workingDays input) (of_Z 1) = true) :
  (exists e, generateTimetable prompt input st = (Err e, st)
             /\ (e = InvalidInput \/ e = Mismatch))
  /\ (length (subjects input) = length (teachersPerSubject input) ->
      generateTimetable prompt input st = (Err InvalidInput, st))
  /\ (forall values, Form.workingDays values = workingDays input ->
                     Form.formSchema values = false).
Proof.
  pose proof (GenerateTimetableInputSchema_workingDays input Hwd) as Hschema.
  assert (Hflow : generateTimetableFlow prompt input st = (Err InvalidInput, st)).
  { unfold generateTimetableFlow, defineFlow. now rewrite Hschema. }
  split; [|split].
  - unfold generateTimetable. destruct (negb _).
    + exists Mismatch. split; [reflexivity|now right].
    + exists InvalidInput. split; [assumption|now left].
  - intros Hlen. unfold generateTimetable.
    now rewrite (proj2 (Nat.eqb_eq _ _) Hlen).
  - intros values Hsame.
    assert (Hrange : Form.int_in_range 1 7 (workingDays input) = false).
    { pose proof (int_positive_below_one _ Hwd) as Hpos.
      unfold int_positive in Hpos. unfold Form.int_in_range.
      rewrite <- (andb_assoc (negb _)), Hpos, andb_false_r. reflexivity. }
    unfold Form.formSchema. now rewrite Hsame, Hrange.
Qed.

Lemma generateTimetable_rejects_workingDays_below_one_witness :
  generateTimetable
    (Samples.steady_model (Some (untyped Samples.lunch_timetable)))
    {| workingDays := of_Z 0; classesPerDay := of_Z 4;
       subjects := [lit "Math"; lit "Art"];
       teachersPerSubject := [of_Z 2; of_Z 1];
       otherConstraints := None |}
    0%nat
  = (Err InvalidInput, 0%nat).
Proof.
  apply (generateTimetable_rejects_workingDays_below_one nat
           (Samples.steady_model (Some (untyped Samples.lunch_timetable)))
           {| workingDays := of_Z 0; classesPerDay := of_Z 4;
              subjects := [lit "Math"; lit "Art"];
              teachersPerSubject := [of_Z 2; of_Z 1];
              otherConstraints := None |}
           0%nat).
  - reflexivity.
  - reflexivity.
Defined.

(** On a typed output the two readings of the break law agree. *)
Lemma break_placed_untyped (label : jsstring) (k : nat) (t : GenerateTimetableOutput) :
  Laws.break_placed label k t <-> Laws.reply_break_placed label k (untyped t).
Proof.
  unfold Laws.break_placed, Laws.reply_break_placed, Display.schedule_at, untyped; simpl.
  split.
  - intros [Hp Hcells].
    exists (days t), (periods t), (map Array (schedule t)).
    exists (match nth_error (schedule t) k with Some r => r | None => [] end).
    do 3 (split; [reflexivity|]). split; [assumption|].
    intros d Hlt. specialize (Hcells d Hlt). rewrite nth_error_map.
    destruct (nth_error (schedule t) k) as [r|]; [|discriminate].
    simpl. split; [reflexivity|assumption].
  - intros (ds & ps & sch & cells & Hd & Hp & Hs & Hk & Hcells).
    injection Hd as <-. injection Hp as <-. injection Hs as <-.
    split; [assumption|]. intros d Hlt. destruct (Hcells d Hlt) as [Hrow Hcell].
    rewrite nth_error_map in Hrow.
    destruct (nth_error (schedule t) k) as [r|]; [|discriminate].
    simpl in Hrow. injection Hrow as ->. assumption.
Qed.

Lemma subject_appears_untyped (subject : jsstring) (t : GenerateTimetableOutput) :
  Laws.subject_appears subject t = Laws.reply_subject_appears subject (untyped t).
Proof.
  unfold Laws.subject_appears, Laws.reply_subject_appears, untyped; simpl.
  induction (schedule t) as [|r g IH]; simpl; [reflexivity|].
  now rewrite IH.
Qed.

(** C6, as the code has it: the flow hands the constraint text to the model
    and checks the reply for its dimensions only. When generation succeeds,
    the returned output is the reply of the model, so it has [label] at
    [periods[k]] and in every cell of row [k] (for ["Lunch"] and 3 as for
    any other break) exactly when the reply has. *)
Theorem break_placement_is_the_models
  (ModelState : Type)
  (prompt : GenerateTimetableInput -> ModelState -> option ModelOutput * ModelState)
  (input : GenerateTimetableInput) (st : ModelState)
  (out : GenerateTimetableOutput) (st' : ModelState)
  (Hok : generateTimetable prompt input st = (Ok out, st')) :
  exists reply,
    prompt input st = (Some reply, st')
    /\ reply = untyped out
    /\ (Laws.break_placed (lit "Lunch") 3 out
        <-> Laws.reply_break_placed (lit "Lunch") 3 reply).
Proof.
  apply generateTimetable_Ok_inv in Hok. destruct Hok as (_ & _ & Hp & _).
  exists (untyped out). split; [assumption|]. split; [reflexivity|].
  apply break_placed_untyped.
Qed.

Lemma break_placement_is_the_models_witness :
  exists reply,
    Samples.steady_model (Some (untyped Samples.lunch_timetable))
      Samples.lunch_input 0%nat = (Some reply, 1%nat)
    /\ reply = untyped Samples.lunch_timetable
    /\ (Laws.break_placed (lit "Lunch") 3 Samples.lunch_timetable
        <-> Laws.reply_break_placed (lit "Lunch") 3 reply).
Proof.
  apply (break_placement_is_the_models nat
           (Samples.steady_model (Some (untyped Samples.lunch_timetable)))
           Samples.lunch_input 0%nat Samples.lunch_timetable 1%nat).
  vm_compute. reflexivity.
Defined.

(** C6, as the specification states it, fails: the input asks for lunch after the
    third period, the model replies with four teaching periods and no
    lunch, and that reply is what the call returns. *)
Lemma lunch_break_not_enforced :
  otherConstraints Samples.lunch_input = Some (lit "Lunch break after period 3")
  /\ generateTimetable
       (Samples.steady_model (Some (untyped Samples.no_lunch_timetable)))
       Samples.lunch_input 0%nat
     = (Ok Samples.no_lunch_timetable, 1%nat)
  /\ nth_error (periods Samples.no_lunch_timetable) 3 = Some (lit "Period 4")
  /\ ~ Laws.break_placed (lit "Lunch") 3 Samples.no_lunch_timetable.
Proof.
  repeat split; try (vm_compute; reflexivity).
  intros [Hp _]. vm_compute in Hp. discriminate.
Qed.

(** An input that is admissible apart from one teacher count of 0 is
    admissible. *)
Lemma GenerateTimetableInputSchema_zero_teachers (input : GenerateTimetableInput) (i : nat) :
  nth_error (teachersPerSubject input) i = Some (of_Z 0) ->
  length (subjects input) = length (teachersPerSubject input) ->
  int_positive (workingDays input) = true ->
  int_positive (classesPerDay input) = true ->
  (forall j n, j <> i -> nth_error (teachersPerSubject input) j = Some n ->
               int_nonnegative n = true) ->
  GenerateTimetableInputSchema input = true.
Proof.
  intros Hzero Hlen Hwd Hcpd Hothers. unfold GenerateTimetableInputSchema.
  rewrite Hwd, Hcpd. cbn [andb]. apply andb_true_iff. split.
  - apply Nat.leb_le. rewrite Hlen.
    assert (i < length (teachersPerSubject input))%nat
      by (apply nth_error_Some; congruence).
    lia.
  - apply forallb_forall. intros n Hin.
    destruct (In_nth_error _ _ Hin) as [j Hj].
    destruct (Nat.eq_dec j i) as [->|Hne].
    + rewrite Hzero in Hj. injection Hj as <-. reflexivity.
    + eapply Hothers; eassumption.
Qed.

(** C7, as the code has it: a teacher count of 0 is a non-negative integer
    and does not make the input inadmissible. For an input with
    [teachersPerSubject[i] == 0] that is admissible otherwise, the model is
    consulted, and what it replies is returned as soon as the dimensions
    are right: a subject appears in the returned grid exactly when it
    appears in the reply. *)
Theorem zero_teachers_is_left_to_model
  (ModelState : Type)
  (prompt : GenerateTimetableInput -> ModelState -> option ModelOutput * ModelState)
  (input : GenerateTimetableInput) (st : ModelState) (i : nat)
  (Hzero : nth_error (teachersPerSubject input) i = Some (of_Z 0))
  (Hlen : length (subjects input) = length (teachersPerSubject input))
  (Hwd : int_positive (workingDays input) = true)
  (Hcpd : int_positive (classesPerDay input) = true)
  (Hothers : forall j n, j <> i ->
               nth_error (teachersPerSubject input) j = Some n ->
               int_nonnegative n = true) :
  snd (generateTimetable prompt input st) = snd (prompt input st)
  /\ (forall t st',
        prompt input st = (Some (untyped t), st') ->
        well_dimensioned (untyped t) ->
        generateTimetable prompt input st = (Ok t, st')
        /\ forall subject,
             Laws.subject_appears subject t
             = Laws.reply_subject_appears subject (untyped t)).
Proof.
  pose proof (GenerateTimetableInputSchema_zero_teachers input i
                Hzero Hlen Hwd Hcpd Hothers) as Hschema.
  split.
  - unfold generateTimetable, generateTimetableFlow, defineFlow.
    rewrite (proj2 (Nat.eqb_eq _ _) Hlen), Hschema; simpl.
    rewrite <- generateTimetableFlow_fn_state. unfold await.
    destruct (generateTimetableFlow_fn prompt input st) as [[o|e] st1]; [|reflexivity].
    destruct (GenerateTimetableOutputSchema o); reflexivity.
  - intros t st' Hp Hwell. split.
    + now apply generateTimetable_Ok_intro.
    + intros subject. apply subject_appears_untyped.
Qed.

Lemma zero_teachers_is_left_to_model_witness :
  generateTimetable
    (Samples.steady_model (Some (untyped Samples.x_timetable)))
    Samples.no_teacher_input 0%nat
  = (Ok Samples.x_timetable, 1%nat)
  /\ forall subject,
       Laws.subject_appears subject Samples.x_timetable
       = Laws.reply_subject_appears subject (untyped Samples.x_timetable).
Proof.
  apply (zero_teachers_is_left_to_model nat
           (Samples.steady_model (Some (untyped Samples.x_timetable)))
           Samples.no_teacher_input 0%nat 0%nat).
  - reflexivity.
  - reflexivity.
  - reflexivity.
  - reflexivity.
  - intros [|j] n Hj Hn; [contradiction|].
    destruct j; discriminate.
  - reflexivity.
  - apply well_dimensioned_untyped. split; [reflexivity|]. repeat constructor.
Defined.

(** C7, as the specification states it, fails on both counts: with no teacher for
    the only subject, the call returns the grid of the model, in which the
    subject appears; and when the model has nothing to say the call fails. *)
Lemma zero_teachers_not_enforced :
  nth_error (subjects Samples.no_teacher_input) 0 = Some (lit "X")
  /\ nth_error (teachersPerSubject Samples.no_teacher_input) 0 = Some (of_Z 0)
  /\ generateTimetable
       (Samples.steady_model (Some (untyped Samples.x_timetable)))
       Samples.no_teacher_input 0%nat
     = (Ok Samples.x_timetable, 1%nat)
  /\ Laws.subject_appears (lit "X") Samples.x_timetable = true
  /\ generateTimetable (Samples.steady_model None) Samples.no_teacher_input 0%nat
     = (Err AIFailed, 1%nat).
Proof.
  repeat split; vm_compute; reflexivity.
Qed.

End GenerationLaws.

(** ** What the page hands to the action *)

Module PageLaws.
Import Js.

Lemma trimStart_suffix (s : jsstring) : exists w, s = w ++ trimStart s.
Proof.
  induction s as [|c s [w IH]]; simpl.
  - exists []. reflexivity.
  - destruct (isWhiteSpace c).
    + exists (c :: w). simpl. now rewrite <- IH.
    + exists []. reflexivity.
Qed.

Lemma trimEnd_prefix (s : jsstring) : exists w, s = trimEnd s ++ w.
Proof.
  unfold trimEnd. destruct (trimStart_suffix (rev s)) as [w Hw].
  exists (rev w). rewrite <- rev_app_distr, <- Hw. now rewrite rev_involutive.
Qed.

Lemma trimStart_starts_clean (s : jsstring) : starts_clean (trimStart s) = true.
Proof.
  induction s as [|c s IH]; simpl; [reflexivity|].
  destruct (isWhiteSpace c) eqn:E; [assumption|]. simpl. now rewrite E.
Qed.

Lemma trimStart_fixed (s : jsstring) : starts_clean s = true -> trimStart s = s.
Proof.
  destruct s as [|c s]; simpl; [reflexivity|].
  now destruct (isWhiteSpace c).
Qed.

Lemma trimEnd_starts_clean (s : jsstring) :
  starts_clean s = true -> starts_clean (trimEnd s) = true.
Proof.
  intros H. destruct (trimEnd_prefix s) as [w Hw].
  destruct (trimEnd s) as [|c z]; [reflexivity|].
  rewrite Hw in H. exact H.
Qed.

Lemma trimEnd_idempotent (s : jsstring) : trimEnd (trimEnd s) = trimEnd s.
Proof.
  unfold trimEnd. rewrite rev_involutive.
  now rewrite (trimStart_fixed _ (trimStart_starts_clean (rev s))).
Qed.

(** [trim] leaves a trimmed string alone. *)
Lemma trim_idempotent (s : jsstring) : trim (trim s) = trim s.
Proof.
  unfold trim.
  rewrite (trimStart_fixed (trimEnd (trimStart s))).
  - apply trimEnd_idempotent.
  - apply trimEnd_starts_clean, trimStart_starts_clean.
Qed.

(** [parseInt] yields NaN, an integer or an infinity. *)
Lemma parseInt_range (s : jsstring) :
  parseInt s = NaN \/ (exists z, parseInt s = of_Z z)
  \/ (exists b, parseInt s = Infinity b).
Proof.
  unfold parseInt.
  destruct (match trimStart s with
            | [] => (1%Z, trimStart s)
            | c :: rest =>
                if (c =? 45)%N then ((-1)%Z, rest)
                else if (c =? 43)%N then (1%Z, rest) else (1%Z, trimStart s)
            end) as [sign s2].
  destruct (takeDigits s2) as [|d ds]; [now left|right].
  unfold Number_of_integer. destruct (_ <? _)%Z; eauto.
Qed.

Lemma ge_zero_of_Z (z : Z) : ge (of_Z z) (of_Z 0) = true <-> (0 <= z)%Z.
Proof.
  unfold ge, le, of_Z, Qle_bool; simpl. rewrite Z.leb_le. lia.
Qed.

(** What the filter on the teacher counts lets through: the integers from
    0 on, and the positive infinity. *)
Lemma count_filter_passes (s : jsstring) :
  negb (isNaN (parseInt s)) && ge (parseInt s) (of_Z 0) = true ->
  (exists z, (0 <= z)%Z /\ parseInt s = of_Z z) \/ parseInt s = Infinity false.
Proof.
  destruct (parseInt_range s) as [->|[[z ->]|[b ->]]]; simpl.
  - discriminate.
  - intros H. left. exists z. split; [|reflexivity].
    now apply ge_zero_of_Z.
  - destruct b; [discriminate|now right].
Qed.

(** Every subject the page submits is a non-empty, trimmed string. *)
Lemma build_input_subjects (values : Form.TimetableFormValues) (s : jsstring) :
  In s (Flow.subjects (Page.build_input values)) ->
  truthy s = true /\ trim s = s.
Proof.
  simpl. rewrite filter_In, in_map_iff. intros [[x [<- _]] Htruthy].
  split; [assumption|apply trim_idempotent].
Qed.

(** Every teacher count the page submits is an integer from 0 on, or the
    positive infinity. *)
Lemma build_input_teachersPerSubject (values : Form.TimetableFormValues) (n : number) :
  In n (Flow.teachersPerSubject (Page.build_input values)) ->
  (exists z, (0 <= z)%Z /\ n = of_Z z) \/ n = Infinity false.
Proof.
  simpl. rewrite filter_In, in_map_iff. intros [[x [<- _]] Hpass].
  now apply count_filter_passes.
Qed.

Section WithAction.

Variable Server : Type.
Variable generateTimetableAction :
  Flow.GenerateTimetableInput -> Server -> option Page.ActionResult * Server.

(** A submission whose lists differ in length stops at the page: a toast,
    no loading, no timetable, and the server is not called. *)
Lemma handleGenerateTimetable_mismatch
  (values : Form.TimetableFormValues) (st : Page.PageState) (srv : Server) :
  length (Flow.subjects (Page.build_input values))
  <> length (Flow.teachersPerSubject (Page.build_input values)) ->
  Page.handleGenerateTimetable generateTimetableAction values st srv
  = ({| Page.timetableData := None; Page.isLoading := false;
        Page.toasts := Page.toasts st ++ [Page.InputError] |}, srv).
Proof.
  intros Hlen. unfold Page.handleGenerateTimetable.
  now rewrite (proj2 (Nat.eqb_neq _ _) Hlen).
Qed.

(** Any other submission calls the action once, with the input built. *)
Lemma handleGenerateTimetable_calls_action
  (values : Form.TimetableFormValues) (st : Page.PageState) (srv : Server) :
  length (Flow.subjects (Page.build_input values))
  = length (Flow.teachersPerSubject (Page.build_input values)) ->
  snd (Page.handleGenerateTimetable generateTimetableAction values st srv)
  = snd (generateTimetableAction (Page.build_input values) srv).
Proof.
  intros Hlen. unfold Page.handleGenerateTimetable.
  rewrite (proj2 (Nat.eqb_eq _ _) Hlen); simpl.
  now destruct (generateTimetableAction (Page.build_input values) srv).
Qed.

End WithAction.

(** C3: an input whose [subjects] and [teachersPerSubject] differ in length
    is rejected with the mismatch error before the flow runs: the model is
    not consulted (its state is the one the call started from) and no
    schedule is produced. The page stops a submission that builds such an
    input even earlier: the action is not called. *)
Theorem generateTimetable_rejects_mismatch
  (ModelState : Type)
  (prompt : Flow.GenerateTimetableInput -> ModelState
            -> option Flow.ModelOutput * ModelState)
  (input : Flow.GenerateTimetableInput) (st : ModelState)
  (Hlen : length (Flow.subjects input) <> length (Flow.teachersPerSubject input)) :
  Flow.generateTimetable prompt input st = (Flow.Err Flow.Mismatch, st)
  /\ forall (Server : Type)
       (generateTimetableAction :
          Flow.GenerateTimetableInput -> Server -> option Page.ActionResult * Server)
       (values : Form.TimetableFormValues) (page : Page.PageState) (srv : Server),
      Page.build_input values = input ->
      Page.handleGenerateTimetable generateTimetableAction values page srv
      = ({| Page.timetableData := None; Page.isLoading := false;
            Page.toasts := Page.toasts page ++ [Page.InputError] |}, srv).
Proof.
  split.
  - unfold Flow.generateTimetable.
    now rewrite (proj2 (Nat.eqb_neq _ _) Hlen).
  - intros Server action values page srv Hbuilt.
    apply handleGenerateTimetable_mismatch. now rewrite Hbuilt.
Qed.

Lemma generateTimetable_rejects_mismatch_witness :
  Flow.generateTimetable
    (Samples.steady_model (Some (Flow.untyped Samples.lunch_timetable)))
    (Page.build_input Samples.short_values) 0%nat
  = (Flow.Err Flow.Mismatch, 0%nat)
  /\ Page.handleGenerateTimetable Samples.recording_action Samples.short_values
       Samples.fresh_page []
     = ({| Page.timetableData := None; Page.isLoading := false;
           Page.toasts := [Page.InputError] |}, []).
Proof.
  assert (H : length (Flow.subjects (Page.build_input Samples.short_values))
              <> length (Flow.teachersPerSubject (Page.build_input Samples.short_values)))
    by (vm_compute; lia).
  split.
  - apply (generateTimetable_rejects_mismatch nat
             (Samples.steady_model (Some (Flow.untyped Samples.lunch_timetable)))
             (Page.build_input Samples.short_values) 0%nat H).
  - apply (proj2 (generateTimetable_rejects_mismatch nat
                    (Samples.steady_model (Some (Flow.untyped Samples.lunch_timetable)))
                    (Page.build_input Samples.short_values) 0%nat H)
                 (list Flow.GenerateTimetableInput) Samples.recording_action
                 Samples.short_values Samples.fresh_page [] eq_refl).
Defined.

(** What holds of every input that reaches the action: the subjects are
    non-empty trimmed strings, the teacher counts are integers from 0 on or
    the positive infinity, and there are as many of the ones as of the
    others. *)
Lemma input_reaching_action
  (Server : Type)
  (generateTimetableAction :
     Flow.GenerateTimetableInput -> Server -> option Page.ActionResult * Server)
  (values : Form.TimetableFormValues) (page : Page.PageState) (srv : Server) :
  let input := Page.build_input values in
  (forall s, In s (Flow.subjects input) -> truthy s = true /\ trim s = s)
  /\ (forall n, In n (Flow.teachersPerSubject input) ->
                (exists z, (0 <= z)%Z /\ n = of_Z z) \/ n = Infinity false)
  /\ (length (Flow.subjects input) = length (Flow.teachersPerSubject input)
      /\ snd (Page.handleGenerateTimetable generateTimetableAction values page srv)
         = snd (generateTimetableAction input srv)
      \/ length (Flow.subjects input) <> length (Flow.teachersPerSubject input)
         /\ snd (Page.handleGenerateTimetable generateTimetableAction values page srv)
            = srv).
Proof.
  intros input. split; [apply build_input_subjects|].
  split; [apply build_input_teachersPerSubject|].
  destruct (Nat.eq_dec (length (Flow.subjects input))
              (length (Flow.teachersPerSubject input))) as [Heq|Hne].
  - left. split; [assumption|]. now apply handleGenerateTimetable_calls_action.
  - right. split; [assumption|].
    unfold input in Hne.
    now rewrite (handleGenerateTimetable_mismatch _ generateTimetableAction
                   values page srv Hne).
Qed.

(** C8 fails on the code at one point: a count of more digits than a
    number can hold parses to the positive infinity, which is neither NaN
    nor below 0, so both the schema of the form and the filter of the page
    let it through: the action is called with a teacher count that is not
    an integer. *)
Theorem page_submits_infinite_count :
  Form.formSchema Samples.huge_count_values = true
  /\ Flow.teachersPerSubject (Page.build_input Samples.huge_count_values)
     = [Infinity false]
  /\ isInteger (Infinity false) = false
  /\ snd (Page.handleGenerateTimetable Samples.recording_action
            Samples.huge_count_values Samples.fresh_page [])
     = [Page.build_input Samples.huge_count_values].
Proof.
  vm_compute. repeat split.
Qed.

End PageLaws.

(** ** The text export *)

Module DisplayLaws.
Import Js Flow Display Laws.

Lemma forEach_ext {A T : Type} (f g : A -> nat -> T -> T) (l : list A) (i : nat) (st : T) :
  (forall a k x, f a k x = g a k x) -> forEach f l i st = forEach g l i st.
Proof.
  intros Hfg. revert i st. induction l as [|a l IH]; intros i st; simpl.
  - reflexivity.
  - now rewrite Hfg, IH.
Qed.

(** A loop that only appends to the text appends the pieces in order. *)
Lemma forEach_append {A : Type} (g : A -> nat -> jsstring) (l : list A) (i : nat)
  (text : jsstring) :
  forEach (fun a k text => text ++ g a k) l i text = text ++ concat (mapi g l i).
Proof.
  revert i text. induction l as [|a l IH]; intros i text; simpl.
  - now rewrite app_nil_r.
  - now rewrite IH, app_assoc.
Qed.

Lemma length_mapi {A B : Type} (g : A -> nat -> B) (l : list A) (i : nat) :
  length (mapi g l i) = length l.
Proof.
  revert i. induction l as [|a l IH]; intros i; simpl; [reflexivity|].
  now rewrite IH.
Qed.

Lemma nth_error_mapi {A B : Type} (g : A -> nat -> B) (l : list A) (i k : nat) (a : A) :
  nth_error l k = Some a -> nth_error (mapi g l i) k = Some (g a (i + k)%nat).
Proof.
  revert i k. induction l as [|x l IH]; intros i k; destruct k as [|k]; simpl;
    try discriminate.
  - intros H. injection H as ->. now rewrite Nat.add_0_r.
  - intros H. rewrite (IH (S i) k H). f_equal. f_equal. lia.
Qed.

Lemma or_Free_free (v : option cell) : is_free v -> or_Free v = lit "Free".
Proof.
  intros [->|[->| ->]]; reflexivity.
Qed.

Lemma convertToPlainText_lines (data : GenerateTimetableOutput) :
  convertToPlainText data = heading data ++ concat (schedule_lines data).
Proof.
  unfold convertToPlainText, heading, schedule_lines.
  rewrite (forEach_ext _
             (fun period periodIndex text =>
                text ++ (padEnd period 15 space ++ concat (cells_of data periodIndex)
                         ++ newline))).
  - rewrite forEach_append. now rewrite <- !app_assoc.
  - intros period k text. rewrite forEach_append. unfold cells_of.
    now rewrite <- !app_assoc.
Qed.

Lemma line_breaks_app (a b : jsstring) :
  line_breaks (a ++ b) = (line_breaks a + line_breaks b)%nat.
Proof. apply count_occ_app. Qed.

Lemma line_breaks_concat (k : nat) (l : list jsstring) :
  (forall x, In x l -> line_breaks x = k) ->
  line_breaks (concat l) = (k * length l)%nat.
Proof.
  induction l as [|x l IH]; intros H; simpl.
  - now rewrite Nat.mul_0_r.
  - rewrite line_breaks_app, (H x (or_introl eq_refl)), IH; [lia|].
    intros y Hy. apply H. now right.
Qed.

Lemma line_breaks_firstn_zero (k : nat) (l : jsstring) :
  line_breaks l = 0%nat -> line_breaks (firstn k l) = 0%nat.
Proof.
  unfold line_breaks. rewrite <- !count_occ_not_In.
  intros H Hin. apply H. revert k Hin.
  induction l as [|c l IH]; intros [|k]; simpl; try tauto.
  intros [->|Hin]; [now left|]. right. eapply IH; [|eassumption].
  intros Hl. apply H. now right.
Qed.

(** Padding with a character that is not a line break adds none. *)
Lemma line_breaks_padEnd (s : jsstring) (n : nat) (c : N) :
  c <> 10%N -> line_breaks (padEnd s n [c]) = line_breaks s.
Proof.
  intros Hc. unfold padEnd. destruct (n <=? length s)%nat; [reflexivity|].
  rewrite line_breaks_app, line_breaks_firstn_zero; [lia|].
  rewrite (line_breaks_concat 0); [reflexivity|].
  intros x Hx. apply repeat_spec in Hx. subst x.
  unfold line_breaks. simpl. destruct (N.eq_dec c 10); [contradiction|reflexivity].
Qed.

Lemma in_mapi {A B : Type} (g : A -> nat -> B) (l : list A) (i : nat) (b : B) :
  In b (mapi g l i) -> exists a k, In a l /\ b = g a k.
Proof.
  revert i. induction l as [|x l IH]; intros i; simpl; [tauto|].
  intros [<-|Hin].
  - exists x, i. split; [now left|reflexivity].
  - destruct (IH _ Hin) as (a & k & Ha & ->). exists a, k. split; [now right|reflexivity].
Qed.

Lemma line_breaks_or_Free (data : GenerateTimetableOutput) (i d : nat) :
  single_line_names data -> line_breaks (or_Free (schedule_at data i d)) = 0%nat.
Proof.
  intros (_ & _ & Hcells). unfold schedule_at.
  destruct (nth_error (schedule data) i) as [r|] eqn:Hr; [|reflexivity].
  destruct (nth_error r d) as [[s|]|] eqn:Hd; try reflexivity.
  simpl. destruct (truthy s); [|reflexivity].
  apply (Hcells r s); eapply nth_error_In; eassumption.
Qed.

Lemma line_breaks_heading (data : GenerateTimetableOutput) :
  single_line_names data -> line_breaks (heading data) = 4%nat.
Proof.
  intros (Hdays & _ & _). unfold heading, join.
  rewrite !line_breaks_app.
  rewrite (line_breaks_concat 0), (line_breaks_concat 0).
  - reflexivity.
  - intros x Hx. apply in_map_iff in Hx. destruct Hx as [day [<- _]]. reflexivity.
  - intros x Hx. apply in_map_iff in Hx. destruct Hx as [day [<- Hday]].
    change space with [32%N]. rewrite line_breaks_padEnd by discriminate.
    now apply Hdays.
Qed.

Lemma line_breaks_schedule_lines (data : GenerateTimetableOutput) :
  single_line_names data ->
  line_breaks (concat (schedule_lines data)) = length (periods data).
Proof.
  intros Hnames. rewrite (line_breaks_concat 1).
  - unfold schedule_lines. rewrite length_mapi. lia.
  - intros x Hx. apply in_mapi in Hx. destruct Hx as (period & i & Hperiod & ->).
    rewrite !line_breaks_app. change space with [32%N].
    rewrite line_breaks_padEnd by discriminate.
    destruct Hnames as (Hd & Hp & Hc). rewrite (Hp period Hperiod).
    rewrite (line_breaks_concat 0); [reflexivity|].
    intros y Hy. apply in_mapi in Hy. destruct Hy as (day & d & _ & ->).
    change space with [32%N]. rewrite line_breaks_padEnd by discriminate.
    apply line_breaks_or_Free. repeat split; assumption.
Qed.

(** C9: the text export is the three heading lines followed by one line per
    entry of [periods], in order; the line of a period is its label, then
    exactly [days.length] cells, then a line break; and the cell of a
    schedule entry that is [null], [undefined] or the empty string reads
    ["Free"] (padded to the cell width). When no name or entry contains a
    line break itself, the text has exactly [4 + periods.length] line
    breaks. *)
Theorem convertToPlainText_layout (data : GenerateTimetableOutput) :
  convertToPlainText data = heading data ++ concat (schedule_lines data)
  /\ length (schedule_lines data) = length (periods data)
  /\ (forall i period,
        nth_error (periods data) i = Some period ->
        nth_error (schedule_lines data) i
        = Some (padEnd period 15 space ++ concat (cells_of data i) ++ newline))
  /\ (forall i, length (cells_of data i) = length (days data))
  /\ (forall i d,
        (d < length (days data))%nat ->
        is_free (schedule_at data i d) ->
        nth_error (cells_of data i) d = Some (padEnd (lit "Free") 20 space))
  /\ (single_line_names data ->
      line_breaks (convertToPlainText data) = (4 + length (periods data))%nat).
Proof.
  split; [apply convertToPlainText_lines|].
  split; [apply length_mapi|].
  split; [|split; [|split]].
  - intros i period Hi. unfold schedule_lines.
    now rewrite (nth_error_mapi _ _ 0 i period Hi).
  - intros i. apply length_mapi.
  - intros i d Hd Hfree. unfold cells_of.
    destruct (nth_error (days data) d) as [day|] eqn:Hday.
    + rewrite (nth_error_mapi _ _ 0 d day Hday). simpl.
      now rewrite (or_Free_free _ Hfree).
    + apply nth_error_None in Hday. lia.
  - intros Hnames. rewrite convertToPlainText_lines, line_breaks_app.
    now rewrite line_breaks_heading, line_breaks_schedule_lines.
Qed.

Example convertToPlainText_free_period :
  convertToPlainText Samples.free_period_timetable
  = lit "Timetable" ++ newline ++ newline
    ++ lit "Period         Monday              " ++ newline
    ++ lit "-----------------------------------" ++ newline
    ++ lit "Period 1       Math - Teacher 1    " ++ newline
    ++ lit "Period 2       Free                " ++ newline.
Proof. vm_compute. reflexivity. Qed.

End DisplayLaws.

(** ** The flow beyond its dimension law: errors and the use of the model *)

Module FlowMore.
Import Js Flow FlowFacts.


Lemma find_first_invalid (f : row -> bool) (good : list row) (bad : row) (rest : list row) :
  forallb (fun r => negb (f r)) good = true -> f bad = true ->
  find f (good ++ bad :: rest) = Some bad.
Proof.
  intros Hgood Hbad. induction good as [|g good IH]; simpl.
  - now rewrite Hbad.
  - simpl in Hgood. apply andb_true_iff in Hgood. destruct Hgood as [Hg Hgood].
    apply negb_true_iff in Hg. rewrite Hg. now apply IH.
Qed.

Section WithModel.

Variable ModelState : Type.
Variable prompt :
  GenerateTimetableInput -> ModelState -> option ModelOutput * ModelState.

(** On an admissible input the call is the function of the flow followed
    by the output schema. *)
Lemma generateTimetable_admissible (input : GenerateTimetableInput) (st : ModelState) :
  length (subjects input) = length (teachersPerSubject input) ->
  GenerateTimetableInputSchema input = true ->
  generateTimetable prompt input st
  = match generateTimetableFlow_fn prompt input st with
    | (Ok o, st') =>
        match GenerateTimetableOutputSchema o with
        | Some t => (Ok t, st')
        | None => (Err InvalidOutput, st')
        end
    | (Err e, st') => (Err e, st')
    end.
Proof.
  intros Hlen Hschema. unfold generateTimetable, generateTimetableFlow, defineFlow.
  rewrite (proj2 (Nat.eqb_eq _ _) Hlen), Hschema. simpl. unfold await.
  destruct (generateTimetableFlow_fn prompt input st) as [[o|e] st']; [|reflexivity].
  destruct (GenerateTimetableOutputSchema o); reflexivity.
Qed.


End WithModel.



(** X2: the model is consulted exactly when the input passes the length
    check and the input schema; a rejected input leaves it alone, and an
    accepted one consults it once, whether the reply is then accepted or
    not. *)
Theorem generateTimetable_consults_model
  (ModelState : Type)
  (prompt : GenerateTimetableInput -> ModelState -> option ModelOutput * ModelState)
  (input : GenerateTimetableInput) (st : ModelState) :
  snd (generateTimetable prompt input st)
  = if (length (subjects input) =? length (teachersPerSubject input))%nat
       && GenerateTimetableInputSchema input
    then snd (prompt input st)
    else st.
Proof.
  destruct (Nat.eqb_spec (length (subjects input)) (length (teachersPerSubject input)))
    as [Hlen|Hlen]; simpl.
  - destruct (GenerateTimetableInputSchema input) eqn:Hschema.
    + rewrite (generateTimetable_admissible _ prompt input st Hlen Hschema).
      rewrite <- generateTimetableFlow_fn_state.
      destruct (generateTimetableFlow_fn prompt input st) as [[o|e] st1]; [|reflexivity].
      destruct (GenerateTimetableOutputSchema o); reflexivity.
    + unfold generateTimetable, generateTimetableFlow, defineFlow.
      now rewrite (proj2 (Nat.eqb_eq _ _) Hlen), Hschema.
  - unfold generateTimetable. now rewrite (proj2 (Nat.eqb_neq _ _) Hlen).
Qed.

(** X3: on an admissible input, a reply that has its three fields but not
    as many schedule rows as periods is rejected with the two counts and
    the period names, before any row is looked at. *)
Theorem generateTimetable_rows_mismatch
  (ModelState : Type)
  (prompt : GenerateTimetableInput -> ModelState -> option ModelOutput * ModelState)
  (input : GenerateTimetableInput) (st : ModelState)
  (o : ModelOutput) (st' : ModelState) (ds ps : list jsstring) (sch : list row)
  (Hlen : length (subjects input) = length (teachersPerSubject input))
  (Hschema : GenerateTimetableInputSchema input = true)
  (Hreply : prompt input st = (Some o, st'))
  (Hd : out_days o = Some ds) (Hp : out_periods o = Some ps)
  (Hs : out_schedule o = Some sch)
  (Hrows : length sch <> length ps) :
  generateTimetable prompt input st
  = (Err (RowsMismatch (length sch) (length ps) ps), st').
Proof.
  rewrite (generateTimetable_admissible _ prompt input st Hlen Hschema).
  unfold generateTimetableFlow_fn, await, call_prompt. rewrite Hreply. simpl.
  rewrite Hd, Hp, Hs. now rewrite (proj2 (Nat.eqb_neq _ _) Hrows).
Qed.

Lemma generateTimetable_rows_mismatch_witness :
  generateTimetable (Samples.steady_model (Some MoreSamples.short_periods_output))
    Samples.lunch_input 0%nat
  = (Err (RowsMismatch 2 1 [lit "Period 1"]), 1%nat).
Proof.
  apply (generateTimetable_rows_mismatch nat
           (Samples.steady_model (Some MoreSamples.short_periods_output))
           Samples.lunch_input 0%nat MoreSamples.short_periods_output 1%nat
           [lit "Monday"] [lit "Period 1"]
           [Array [Samples.str "Math - Teacher 1"];
            Array [Samples.str "Art - Teacher 1"]]);
    try reflexivity.
  simpl. lia.
Defined.

(** X4: on an admissible input, a reply with as many rows as periods in
    which some row is not an array of [days.length] cells is rejected, and
    the error reports the first such row: its length, or that it is not an
    array. *)
Theorem generateTimetable_column_mismatch
  (ModelState : Type)
  (prompt : GenerateTimetableInput -> ModelState -> option ModelOutput * ModelState)
  (input : GenerateTimetableInput) (st : ModelState)
  (o : ModelOutput) (st' : ModelState) (ds ps : list jsstring)
  (good : list row) (bad : row) (rest : list row)
  (Hlen : length (subjects input) = length (teachersPerSubject input))
  (Hschema : GenerateTimetableInputSchema input = true)
  (Hreply : prompt input st = (Some o, st'))
  (Hd : out_days o = Some ds) (Hp : out_periods o = Some ps)
  (Hs : out_schedule o = Some (good ++ bad :: rest))
  (Hrows : length (good ++ bad :: rest) = length ps)
  (Hgood : Forall (fun r => row_length r = Some (length ds)) good)
  (Hbad : row_length bad <> Some (length ds)) :
  generateTimetable prompt input st
  = (Err (ColumnMismatch (row_length bad) (length ds) ds), st').
Proof.
  assert (Hinvalid : invalid_row (length ds) bad = true).
  { destruct (invalid_row (length ds) bad) eqn:E; [reflexivity|].
    apply invalid_row_false in E. contradiction. }
  assert (Hfind : find (invalid_row (length ds)) (good ++ bad :: rest) = Some bad).
  { apply find_first_invalid; [|assumption].
    apply forallb_forall. intros r Hr. apply negb_true_iff, invalid_row_false.
    rewrite Forall_forall in Hgood. now apply Hgood. }
  rewrite (generateTimetable_admissible _ prompt input st Hlen Hschema).
  unfold generateTimetableFlow_fn, await, call_prompt. rewrite Hreply. simpl.
  rewrite Hd, Hp, Hs. rewrite (proj2 (Nat.eqb_eq _ _) Hrows). simpl.
  assert (Hsome : (0 <? length (good ++ bad :: rest))%nat
                  && existsb (invalid_row (length ds)) (good ++ bad :: rest) = true).
  { apply andb_true_iff. split.
    - apply Nat.ltb_lt. rewrite length_app. simpl. lia.
    - apply existsb_exists. exists bad. split; [|assumption].
      apply in_or_app. right. now left. }
  rewrite Hsome, Hfind. reflexivity.
Qed.

Lemma generateTimetable_column_mismatch_witness :
  generateTimetable (Samples.steady_model (Some Samples.ragged_output))
    Samples.lunch_input 0%nat
  = (Err (ColumnMismatch (Some 1%nat) 2 [lit "Monday"; lit "Tuesday"]), 1%nat).
Proof.
  apply (generateTimetable_column_mismatch nat
           (Samples.steady_model (Some Samples.ragged_output))
           Samples.lunch_input 0%nat Samples.ragged_output 1%nat
           [lit "Monday"; lit "Tuesday"] [lit "Period 1"; lit "Period 2"]
           [Array [Samples.str "Math - Teacher 1"; Samples.str "Art - Teacher 1"]]
           (Array [Samples.str "Art - Teacher 1"]) []);
    try reflexivity.
  - repeat constructor.
  - simpl. discriminate.
Defined.

(** X5: generation succeeds with a timetable exactly when the input has as
    many subjects as teacher counts and satisfies the input schema, and the
    model replies with that timetable, its rows as many as its periods and
    each as long as its days. Nothing else is asked of the reply. *)
Theorem generateTimetable_succeeds_iff
  (ModelState : Type)
  (prompt : GenerateTimetableInput -> ModelState -> option ModelOutput * ModelState)
  (input : GenerateTimetableInput) (st : ModelState)
  (t : GenerateTimetableOutput) (st' : ModelState) :
  generateTimetable prompt input st = (Ok t, st')
  <-> length (subjects input) = length (teachersPerSubject input)
      /\ GenerateTimetableInputSchema input = true
      /\ prompt input st = (Some (untyped t), st')
      /\ length (schedule t) = length (periods t)
      /\ Forall (fun cells => length cells = length (days t)) (schedule t).
Proof.
  split.
  - intros H. apply generateTimetable_Ok_inv in H.
    destruct H as (Hlen & Hschema & Hreply & Hwd).
    apply well_dimensioned_untyped in Hwd. tauto.
  - intros (Hlen & Hschema & Hreply & Hrows & Hcols).
    apply generateTimetable_Ok_intro; try assumption.
    apply well_dimensioned_untyped. tauto.
Qed.

(** X6: a timetable that generation returned is shown as a table unless it
    has no day or no period, in which case the display reports incomplete
    data; the emptiness test on [schedule] adds nothing, since the flow has
    made it as long as [periods]. A reply without periods, or with periods
    and empty rows, passes the flow. *)
Theorem TimetableDisplay_of_generated
  (ModelState : Type)
  (prompt : GenerateTimetableInput -> ModelState -> option ModelOutput * ModelState)
  (input : GenerateTimetableInput) (st : ModelState)
  (t : GenerateTimetableOutput) (st' : ModelState)
  (Hok : generateTimetable prompt input st = (Ok t, st')) :
  Table.TimetableDisplay t = Table.ErrorCard <-> days t = [] \/ periods t = [].
Proof.
  apply generateTimetable_Ok_inv in Hok. destruct Hok as (_ & _ & _ & Hwd).
  apply well_dimensioned_untyped in Hwd. destruct Hwd as [Hrows _].
  unfold Table.TimetableDisplay.
  destruct (days t) as [|d ds], (periods t) as [|p ps], (schedule t) as [|r rs];
    simpl in *; try discriminate; split; intros H; try reflexivity;
    try discriminate; try tauto.
  destruct H; discriminate.
Qed.

Lemma TimetableDisplay_of_generated_witness :
  Table.TimetableDisplay MoreSamples.empty_timetable = Table.ErrorCard
  <-> days MoreSamples.empty_timetable = [] \/ periods MoreSamples.empty_timetable = [].
Proof.
  apply (TimetableDisplay_of_generated nat
           (Samples.steady_model (Some (untyped MoreSamples.empty_timetable)))
           Samples.lunch_input 0%nat MoreSamples.empty_timetable 1%nat).
  vm_compute. reflexivity.
Defined.

End FlowMore.

(** ** The text export and the table: widths and agreement *)

Module TextMore.
Import Js Flow Display Laws DisplayLaws.

Lemma length_concat_repeat (fill : jsstring) (k : nat) :
  length (concat (repeat fill k)) = (k * length fill)%nat.
Proof.
  induction k as [|k IH]; simpl; [reflexivity|].
  rewrite length_app, IH. lia.
Qed.

Lemma length_concat_uniform (k : nat) (l : list jsstring) :
  (forall x, In x l -> length x = k) -> length (concat l) = (k * length l)%nat.
Proof.
  induction l as [|x l IH]; intros H; simpl.
  - now rewrite Nat.mul_0_r.
  - rewrite length_app, (H x (or_introl eq_refl)), IH; [lia|].
    intros y Hy. apply H. now right.
Qed.

Lemma padEnd_app (s : jsstring) (n : nat) (fill : jsstring) :
  exists pad, padEnd s n fill = s ++ pad.
Proof.
  unfold padEnd. destruct (n <=? length s)%nat.
  - exists []. now rewrite app_nil_r.
  - destruct fill as [|c fill]; [exists []; now rewrite app_nil_r|eauto].
Qed.

Lemma length_padEnd (s : jsstring) (n : nat) (fill : jsstring) :
  fill <> [] -> length (padEnd s n fill) = Nat.max n (length s).
Proof.
  intros Hfill. unfold padEnd.
  destruct (Nat.leb_spec n (length s)) as [Hle|Hlt]; [lia|].
  destruct fill as [|c fill]; [contradiction|].
  rewrite length_app, length_firstn, length_concat_repeat. simpl. nia.
Qed.

(** X7: padding never shortens and never cuts: with a non-empty filler the
    result has [max n s.length] code units, and it starts with [s] in full,
    also when [s] is longer than the width asked for. *)
Theorem padEnd_width_and_prefix (s : jsstring) (n : nat) (fill : jsstring)
  (Hfill : fill <> []) :
  length (padEnd s n fill) = Nat.max n (length s)
  /\ firstn (length s) (padEnd s n fill) = s.
Proof.
  split; [now apply length_padEnd|].
  destruct (padEnd_app s n fill) as [pad ->].
  rewrite firstn_app, Nat.sub_diag, firstn_all. simpl. now rewrite app_nil_r.
Qed.

Lemma padEnd_width_and_prefix_witness :
  length (padEnd (lit "Math - Teacher 1") 20 space) = Nat.max 20 (length (lit "Math - Teacher 1"))
  /\ firstn (length (lit "Math - Teacher 1")) (padEnd (lit "Math - Teacher 1") 20 space)
     = lit "Math - Teacher 1".
Proof.
  apply (padEnd_width_and_prefix (lit "Math - Teacher 1") 20 space).
  discriminate.
Defined.

Lemma length_or_Free (data : GenerateTimetableOutput) (i d : nat) :
  Table.fits_columns data -> (length (or_Free (schedule_at data i d)) <= 20)%nat.
Proof.
  intros (_ & _ & Hcells). unfold schedule_at.
  destruct (nth_error (schedule data) i) as [r|] eqn:Hr; [|simpl; lia].
  destruct (nth_error r d) as [[s|]|] eqn:Hd; try (simpl; lia).
  simpl. destruct (truthy s); [|simpl; lia].
  apply (Hcells r s); eapply nth_error_In; eassumption.
Qed.

Lemma length_cells_of (data : GenerateTimetableOutput) (i : nat) :
  Table.fits_columns data ->
  length (concat (cells_of data i)) = (20 * length (days data))%nat.
Proof.
  intros Hfit. rewrite (length_concat_uniform 20).
  - unfold cells_of. now rewrite length_mapi.
  - intros x Hx. apply in_mapi in Hx. destruct Hx as (day & d & _ & ->).
    rewrite length_padEnd by discriminate.
    pose proof (length_or_Free data i d Hfit). lia.
Qed.

Lemma length_schedule_line (data : GenerateTimetableOutput) (line : jsstring) :
  Table.fits_columns data -> In line (schedule_lines data) ->
  length line = (16 + 20 * length (days data))%nat.
Proof.
  intros Hfit Hline. apply in_mapi in Hline.
  destruct Hline as (period & i & Hperiod & ->).
  rewrite !length_app, length_padEnd by discriminate.
  rewrite (length_cells_of data i Hfit).
  destruct Hfit as (_ & Hp & _). specialize (Hp period Hperiod).
  change (length newline) with 1%nat. lia.
Qed.

Lemma length_heading (data : GenerateTimetableOutput) :
  Table.fits_columns data ->
  length (heading data) = (11 + 2 * (16 + 20 * length (days data)))%nat.
Proof.
  intros (Hd & _ & _). unfold heading. rewrite !length_app.
  rewrite !length_padEnd by discriminate.
  rewrite (length_concat_uniform 20), (length_concat_uniform 20).
  - rewrite !length_map. change (length newline) with 1%nat.
    change (length (lit "Timetable")) with 9%nat.
    change (length (lit "Period")) with 6%nat.
    change (length (lit "")) with 0%nat. lia.
  - intros x Hx. apply in_map_iff in Hx. destruct Hx as [day [<- _]].
    now rewrite length_padEnd by discriminate.
  - intros x Hx. apply in_map_iff in Hx. destruct Hx as [day [<- Hday]].
    rewrite length_padEnd by discriminate. specialize (Hd day Hday). lia.
Qed.

(** X8: when every day name and entry has at most 20 code units and every
    period label at most 15, the export is a grid: every schedule line has
    [15 + 20 * days.length] code units before its line break, and the whole
    text has [11 + (2 + periods.length) * (16 + 20 * days.length)]. *)
Theorem convertToPlainText_aligned (data : GenerateTimetableOutput)
  (Hfit : Table.fits_columns data) :
  (forall line, In line (schedule_lines data) ->
                length line = (16 + 20 * length (days data))%nat)
  /\ length (convertToPlainText data)
     = (11 + (2 + length (periods data)) * (16 + 20 * length (days data)))%nat.
Proof.
  split.
  - intros line. now apply length_schedule_line.
  - rewrite convertToPlainText_lines, length_app, (length_heading data Hfit).
    rewrite (length_concat_uniform (16 + 20 * length (days data))).
    + unfold schedule_lines. rewrite length_mapi. lia.
    + intros line. now apply length_schedule_line.
Qed.

Lemma convertToPlainText_aligned_witness :
  length (convertToPlainText Samples.lunch_timetable)
  = (11 + (2 + length (periods Samples.lunch_timetable))
          * (16 + 20 * length (days Samples.lunch_timetable)))%nat.
Proof.
  apply (convertToPlainText_aligned Samples.lunch_timetable).
  repeat split.
  - intros day Hday. simpl in Hday.
    repeat (destruct Hday as [<-|Hday]; [vm_compute; lia|]). contradiction.
  - intros period Hp. simpl in Hp.
    repeat (destruct Hp as [<-|Hp]; [vm_compute; lia|]). contradiction.
  - intros r s0 Hr Hs. simpl in Hr.
    repeat (destruct Hr as [<-|Hr];
            [simpl in Hs;
             repeat (destruct Hs as [Hs|Hs];
                     [try discriminate; injection Hs as <-; vm_compute; lia|]);
             contradiction|]).
    contradiction.
Defined.

Lemma map_mapi {A B C : Type} (f : B -> C) (g : A -> nat -> B) (l : list A) (i : nat) :
  map f (mapi g l i) = mapi (fun a k => f (g a k)) l i.
Proof.
  revert i. induction l as [|a l IH]; intros i; simpl; [reflexivity|].
  now rewrite IH.
Qed.

Lemma mapi_ext {A B : Type} (f g : A -> nat -> B) (l : list A) (i : nat) :
  (forall a k, f a k = g a k) -> mapi f l i = mapi g l i.
Proof.
  intros H. revert i. induction l as [|a l IH]; intros i; simpl; [reflexivity|].
  now rewrite H, IH.
Qed.

Lemma shown_or_FreeSpan (v : option cell) : Table.shown (Table.or_FreeSpan v) = or_Free v.
Proof.
  destruct v as [[s|]|]; simpl; try reflexivity. now destruct (truthy s).
Qed.

(** X9: the table and the text export show the same thing. When the
    display renders a table, its head is the days, it has one row per
    period, each row has one cell per day, and the line of the export for
    that period is the row written out: the label padded to 15, then each
    cell's text (["Free"] for the italic span) padded to 20. *)
Theorem TimetableDisplay_agrees_with_text (data : GenerateTimetableOutput)
  (head : list jsstring) (body : list (jsstring * list Table.cell_view))
  (Htable : Table.TimetableDisplay data = Table.TableCard head body) :
  head = days data
  /\ length body = length (periods data)
  /\ forall i period,
       nth_error (periods data) i = Some period ->
       exists cells,
         nth_error body i = Some (period, cells)
         /\ length cells = length (days data)
         /\ nth_error (schedule_lines data) i
            = Some (padEnd period 15 space
                    ++ concat (map (fun c => padEnd (Table.shown c) 20 space) cells)
                    ++ newline).
Proof.
  unfold Table.TimetableDisplay in Htable.
  destruct (_ || _); [discriminate|]. injection Htable as <- <-.
  split; [apply map_id|]. split; [apply length_mapi|].
  intros i period Hi.
  exists (mapi (fun _ dayIndex => Table.or_FreeSpan (schedule_at data i dayIndex))
            (days data) 0).
  split; [now rewrite (nth_error_mapi _ _ 0 i period Hi)|].
  split; [apply length_mapi|].
  unfold schedule_lines. rewrite (nth_error_mapi _ _ 0 i period Hi). simpl.
  unfold cells_of. rewrite map_mapi.
  rewrite (mapi_ext
             (fun (_ : jsstring) k =>
                padEnd (Table.shown (Table.or_FreeSpan (schedule_at data i k))) 20 space)
             (fun (_ : jsstring) k => padEnd (or_Free (schedule_at data i k)) 20 space));
    [reflexivity|].
  intros a k. now rewrite shown_or_FreeSpan.
Qed.

Lemma TimetableDisplay_agrees_with_text_witness :
  [lit "Monday"] = days Samples.free_period_timetable
  /\ length [(lit "Period 1", [Table.Text (lit "Math - Teacher 1")]);
             (lit "Period 2", [Table.FreeSpan])]
     = length (periods Samples.free_period_timetable)
  /\ forall i period,
       nth_error (periods Samples.free_period_timetable) i = Some period ->
       exists cells,
         nth_error [(lit "Period 1", [Table.Text (lit "Math - Teacher 1")]);
                    (lit "Period 2", [Table.FreeSpan])] i = Some (period, cells)
         /\ length cells = length (days Samples.free_period_timetable)
         /\ nth_error (schedule_lines Samples.free_period_timetable) i
            = Some (padEnd period 15 space
                    ++ concat (map (fun c => padEnd (Table.shown c) 20 space) cells)
                    ++ newline).
Proof.
  apply (TimetableDisplay_agrees_with_text Samples.free_period_timetable).
  reflexivity.
Defined.

End TextMore.

(** ** Splitting, trimming and parsing what was typed in *)

Module InputMore.
Import Js PageLaws.

Lemma split_not_nil (sep : N) (s : jsstring) : split sep s <> [].
Proof.
  destruct s as [|c s]; simpl; [discriminate|].
  destruct (N.eqb c sep); [discriminate|].
  destruct (split sep s); discriminate.
Qed.

Lemma join_with_split (sep : N) (s : jsstring) :
  Table.join_with [sep] (split sep s) = s.
Proof.
  induction s as [|c s IH]; simpl; [reflexivity|].
  pose proof (split_not_nil sep s) as Hne.
  destruct (N.eqb_spec c sep) as [->|Hc].
  - destruct (split sep s) as [|piece pieces]; [contradiction|].
    simpl in *. now rewrite IH.
  - destruct (split sep s) as [|piece pieces]; [contradiction|].
    destruct pieces as [|piece' pieces]; simpl in *; now rewrite IH.
Qed.

Lemma length_split (sep : N) (s : jsstring) :
  length (split sep s) = S (count_occ N.eq_dec s sep).
Proof.
  induction s as [|c s IH]; simpl; [reflexivity|].
  pose proof (split_not_nil sep s) as Hne.
  destruct (N.eqb_spec c sep) as [->|Hc].
  - simpl. rewrite IH. destruct (N.eq_dec sep sep); [reflexivity|contradiction].
  - destruct (N.eq_dec c sep); [contradiction|].
    destruct (split sep s) as [|piece pieces]; [contradiction|]. exact IH.
Qed.

Lemma split_pieces_free (sep : N) (s piece : jsstring) :
  In piece (split sep s) -> ~ In sep piece.
Proof.
  revert piece. induction s as [|c s IH]; intros piece; simpl.
  - intros [<-|[]]. tauto.
  - destruct (N.eqb_spec c sep) as [->|Hc].
    + intros [<-|Hin]; [tauto|now apply IH].
    + pose proof (split_not_nil sep s) as Hne.
      destruct (split sep s) as [|p ps]; [contradiction|].
      intros [<-|Hin].
      * intros [Heq|Hin]; [congruence|]. apply (IH p); [now left|assumption].
      * apply IH. now right.
Qed.

(** X10: splitting loses nothing and invents nothing: joining the pieces
    with the separator gives the string back, there is one piece more than
    there are separators in the string (so never no piece, and one empty
    piece for the empty string), and no piece contains the separator. *)
Theorem split_round_trip (sep : N) (s : jsstring) :
  Table.join_with [sep] (split sep s) = s
  /\ length (split sep s) = S (count_occ N.eq_dec s sep)
  /\ forall piece, In piece (split sep s) -> ~ In sep piece.
Proof.
  split; [apply join_with_split|].
  split; [apply length_split|].
  intros piece. apply split_pieces_free.
Qed.

Lemma trimStart_split (s : jsstring) :
  exists w, s = w ++ trimStart s /\ forallb isWhiteSpace w = true.
Proof.
  induction s as [|c s (w & IH & Hw)]; simpl.
  - exists []. split; reflexivity.
  - destruct (isWhiteSpace c) eqn:E.
    + exists (c :: w). simpl. rewrite E, Hw. split; [now rewrite <- IH|reflexivity].
    + exists []. split; reflexivity.
Qed.

Lemma forallb_rev {A : Type} (f : A -> bool) (l : list A) :
  forallb f l = true -> forallb f (rev l) = true.
Proof.
  rewrite !forallb_forall. intros H x Hx. apply H. now apply in_rev.
Qed.

Lemma trimEnd_split (s : jsstring) :
  exists w, s = trimEnd s ++ w /\ forallb isWhiteSpace w = true.
Proof.
  unfold trimEnd. destruct (trimStart_split (rev s)) as (w & Hs & Hw).
  exists (rev w). split; [|now apply forallb_rev].
  rewrite <- rev_app_distr, <- Hs. now rewrite rev_involutive.
Qed.

(** X11: [trim] removes white space at the two ends and nothing else: the
    string is white space, then the trimmed string, then white space, and
    the trimmed string neither starts nor ends with white space. *)
Theorem trim_spec (s : jsstring) :
  exists before after,
    s = before ++ trim s ++ after
    /\ forallb isWhiteSpace before = true
    /\ forallb isWhiteSpace after = true
    /\ starts_clean (trim s) = true
    /\ starts_clean (rev (trim s)) = true.
Proof.
  destruct (trimStart_split s) as (before & Hs & Hbefore).
  destruct (trimEnd_split (trimStart s)) as (after & Hs' & Hafter).
  exists before, after. unfold trim. repeat split; try assumption.
  - now rewrite <- Hs', <- Hs.
  - apply trimEnd_starts_clean, trimStart_starts_clean.
  - unfold trimEnd. rewrite rev_involutive. apply trimStart_starts_clean.
Qed.





End InputMore.

(** ** From the form to the flow *)

Module FormMore.
Import Js PageLaws.

Lemma filter_all {A : Type} (f : A -> bool) (l : list A) :
  forallb f l = true -> filter f l = l.
Proof.
  induction l as [|a l IH]; simpl; [reflexivity|].
  rewrite andb_true_iff. intros [Ha Hl]. rewrite Ha. now rewrite IH.
Qed.

Lemma truthy_length (s : jsstring) : truthy s = (0 <? length s)%nat.
Proof. now destruct s. Qed.

(** What [formSchema] asks, piece by piece. *)
Lemma formSchema_inv (data : Form.TimetableFormValues) :
  Form.formSchema data = true ->
  Form.int_in_range 1 7 (Form.workingDays data) = true
  /\ Form.int_in_range 1 12 (Form.classesPerDay data) = true
  /\ forallb truthy (map trim (split Form.comma (Form.subjects data))) = true
  /\ forallb (fun count => negb (isNaN count) && ge count (of_Z 0))
       (map (fun t => parseInt (trim t))
          (split Form.comma (Form.teachersPerSubject data))) = true
  /\ length (filter truthy (map trim (split Form.comma (Form.subjects data))))
     = length (filter truthy
                 (map trim (split Form.comma (Form.teachersPerSubject data)))).
Proof.
  unfold Form.formSchema. cbv zeta. rewrite !andb_true_iff.
  intros (((((((H1 & H2) & _) & H4) & _) & H6) & _) & H8).
  repeat split; try assumption.
  - rewrite forallb_forall in *. intros s Hs. rewrite truthy_length. now apply H4.
  - now apply Nat.eqb_eq.
Qed.

Lemma parsed_piece_truthy (t : jsstring) :
  negb (isNaN (parseInt (trim t))) && ge (parseInt (trim t)) (of_Z 0) = true ->
  truthy (trim t) = true.
Proof.
  destruct (trim t) as [|c s]; [discriminate|reflexivity].
Qed.

Lemma formSchema_subjects_kept (data : Form.TimetableFormValues) :
  Form.formSchema data = true ->
  Flow.subjects (Page.build_input data)
  = map trim (split Form.comma (Form.subjects data)).
Proof.
  intros H. apply formSchema_inv in H. destruct H as (_ & _ & Hs & _).
  simpl. now apply filter_all.
Qed.

Lemma formSchema_counts_kept (data : Form.TimetableFormValues) :
  Form.formSchema data = true ->
  Flow.teachersPerSubject (Page.build_input data)
  = map (fun t => parseInt (trim t))
      (split Form.comma (Form.teachersPerSubject data)).
Proof.
  intros H. apply formSchema_inv in H. destruct H as (_ & _ & _ & Hc & _).
  simpl. now apply filter_all.
Qed.

Lemma formSchema_same_length (data : Form.TimetableFormValues) :
  Form.formSchema data = true ->
  length (Flow.subjects (Page.build_input data))
  = length (Flow.teachersPerSubject (Page.build_input data)).
Proof.
  intros H. rewrite (formSchema_subjects_kept data H), (formSchema_counts_kept data H).
  apply formSchema_inv in H. destruct H as (_ & _ & Hs & Hc & Hcount).
  rewrite (filter_all _ _ Hs) in Hcount.
  rewrite (filter_all truthy (map trim (split Form.comma (Form.teachersPerSubject data))))
    in Hcount.
  - rewrite !length_map in *. exact Hcount.
  - rewrite forallb_forall in *. intros x Hx. apply in_map_iff in Hx.
    destruct Hx as [t [<- Ht]]. apply parsed_piece_truthy. apply Hc.
    apply in_map_iff. exists t. split; [reflexivity|assumption].
Qed.

(** X13: for values that satisfy [formSchema], the two filters of
    [handleGenerateTimetable] remove nothing: the subjects submitted are
    the trimmed pieces of the subjects field, the counts are the parsed
    pieces of the counts field, in the order typed, and there are as many
    of the ones as of the others. The page's own length check never fires
    after the form's. *)
Theorem formSchema_nothing_filtered (data : Form.TimetableFormValues)
  (Hvalid : Form.formSchema data = true) :
  Flow.subjects (Page.build_input data)
  = map trim (split Form.comma (Form.subjects data))
  /\ Flow.teachersPerSubject (Page.build_input data)
     = map (fun t => parseInt (trim t))
         (split Form.comma (Form.teachersPerSubject data))
  /\ length (Flow.subjects (Page.build_input data))
     = length (Flow.teachersPerSubject (Page.build_input data)).
Proof.
  split; [now apply formSchema_subjects_kept|].
  split; [now apply formSchema_counts_kept|now apply formSchema_same_length].
Qed.

Lemma formSchema_nothing_filtered_witness :
  Flow.subjects (Page.build_input Samples.padded_values)
  = map trim (split Form.comma (Form.subjects Samples.padded_values))
  /\ Flow.teachersPerSubject (Page.build_input Samples.padded_values)
     = map (fun t => parseInt (trim t))
         (split Form.comma (Form.teachersPerSubject Samples.padded_values))
  /\ length (Flow.subjects (Page.build_input Samples.padded_values))
     = length (Flow.teachersPerSubject (Page.build_input Samples.padded_values)).
Proof.
  apply (formSchema_nothing_filtered Samples.padded_values).
  vm_compute. reflexivity.
Defined.

(** A number in the range the form allows is a finite integer in it. *)
Lemma int_in_range_inv (lo hi : Z) (n : number) :
  Form.int_in_range lo hi n = true ->
  exists q z, n = Fin q /\ (q == inject_Z z)%Q /\ (lo <= z <= hi)%Z /\ (0 < z)%Z.
Proof.
  unfold Form.int_in_range. rewrite !andb_true_iff.
  intros ((((_ & Hint) & Hpos) & Hlo) & Hhi).
  destruct n as [|b|[num den]]; try discriminate.
  simpl in Hint. apply Z.eqb_eq in Hint.
  assert (Hq : num = (Z.pos den * (num / Z.pos den))%Z)
    by (apply Z_div_exact_full_2; [lia|assumption]).
  set (k := (num / Z.pos den)%Z) in *. clearbody k.
  unfold gt, lt, ge, le, of_Z, Qle_bool in Hpos, Hlo, Hhi. simpl in Hpos, Hlo, Hhi.
  rewrite negb_true_iff, Z.leb_gt in Hpos. rewrite Z.leb_le in Hlo, Hhi.
  exists (num # den), k.
  split; [reflexivity|]. split; [unfold Qeq; simpl; lia|]. nia.
Qed.

Lemma int_in_range_positive (lo hi : Z) (n : number) :
  Form.int_in_range lo hi n = true -> Flow.int_positive n = true.
Proof.
  unfold Form.int_in_range, Flow.int_positive. rewrite !andb_true_iff. tauto.
Qed.

(** X14: the numbers [formSchema] lets through are whole numbers in range:
    [workingDays] is an integer from 1 to 7 and [classesPerDay] an integer
    from 1 to 12. NaN, the infinities and fractions are refused. *)
Theorem formSchema_ranges (data : Form.TimetableFormValues)
  (Hvalid : Form.formSchema data = true) :
  (exists q z, Form.workingDays data = Fin q /\ (q == inject_Z z)%Q /\ (1 <= z <= 7)%Z)
  /\ (exists q z, Form.classesPerDay data = Fin q /\ (q == inject_Z z)%Q
                  /\ (1 <= z <= 12)%Z).
Proof.
  apply formSchema_inv in Hvalid. destruct Hvalid as (Hw & Hc & _).
  apply int_in_range_inv in Hw. apply int_in_range_inv in Hc.
  destruct Hw as (q & z & ? & ? & ? & _). destruct Hc as (q' & z' & ? & ? & ? & _).
  split; eauto.
Qed.

Lemma formSchema_ranges_witness :
  (exists q z, Form.workingDays Samples.padded_values = Fin q
               /\ (q == inject_Z z)%Q /\ (1 <= z <= 7)%Z)
  /\ (exists q z, Form.classesPerDay Samples.padded_values = Fin q
                  /\ (q == inject_Z z)%Q /\ (1 <= z <= 12)%Z).
Proof.
  apply (formSchema_ranges Samples.padded_values).
  vm_compute. reflexivity.
Defined.

Lemma int_nonnegative_of_Z (z : Z) : (0 <= z)%Z -> Flow.int_nonnegative (of_Z z) = true.
Proof.
  intros Hz. unfold Flow.int_nonnegative. rewrite (proj2 (ge_zero_of_Z z) Hz).
  simpl. now rewrite Z.mod_1_r.
Qed.

(** X15: values that satisfy [formSchema] build an input that the server
    side accepts, as long as no teacher count overflowed to the positive
    infinity: [generateTimetable] finds the lengths equal and the input
    schema of the flow satisfied, so it consults the model. *)
Theorem formSchema_input_admissible
  (ModelState : Type)
  (prompt : Flow.GenerateTimetableInput -> ModelState
            -> option Flow.ModelOutput * ModelState)
  (data : Form.TimetableFormValues) (st : ModelState)
  (Hvalid : Form.formSchema data = true)
  (Hfinite : ~ In (Infinity false) (Flow.teachersPerSubject (Page.build_input data))) :
  length (Flow.subjects (Page.build_input data))
  = length (Flow.teachersPerSubject (Page.build_input data))
  /\ Flow.GenerateTimetableInputSchema (Page.build_input data) = true
  /\ snd (Flow.generateTimetable prompt (Page.build_input data) st)
     = snd (prompt (Page.build_input data) st).
Proof.
  pose proof (formSchema_same_length data Hvalid) as Hlen.
  assert (Hschema : Flow.GenerateTimetableInputSchema (Page.build_input data) = true).
  { pose proof (formSchema_subjects_kept data Hvalid) as Hsubjects.
    pose proof (formSchema_inv data Hvalid) as (Hw & Hc & _).
    unfold Flow.GenerateTimetableInputSchema. rewrite !andb_true_iff. repeat split.
    - exact (int_in_range_positive 1 7 _ Hw).
    - exact (int_in_range_positive 1 12 _ Hc).
    - apply Nat.leb_le. rewrite Hsubjects, length_map, InputMore.length_split. lia.
    - apply forallb_forall. intros n Hn.
      destruct (build_input_teachersPerSubject data n Hn) as [(z & Hz & ->)| ->].
      + now apply int_nonnegative_of_Z.
      + contradiction. }
  split; [assumption|]. split; [assumption|].
  rewrite <- FlowFacts.generateTimetableFlow_fn_state.
  rewrite (FlowMore.generateTimetable_admissible _ prompt _ st Hlen Hschema).
  destruct (Flow.generateTimetableFlow_fn prompt (Page.build_input data) st)
    as [[o|e] st1]; [|reflexivity].
  destruct (Flow.GenerateTimetableOutputSchema o); reflexivity.
Qed.

Lemma formSchema_input_admissible_witness :
  length (Flow.subjects (Page.build_input MoreSamples.wordy_values))
  = length (Flow.teachersPerSubject (Page.build_input MoreSamples.wordy_values))
  /\ Flow.GenerateTimetableInputSchema (Page.build_input MoreSamples.wordy_values) = true
  /\ snd (Flow.generateTimetable
            (Samples.steady_model (Some (Flow.untyped Samples.lunch_timetable)))
            (Page.build_input MoreSamples.wordy_values) 0%nat)
     = snd (Samples.steady_model (Some (Flow.untyped Samples.lunch_timetable))
              (Page.build_input MoreSamples.wordy_values) 0%nat).
Proof.
  apply (formSchema_input_admissible nat
           (Samples.steady_model (Some (Flow.untyped Samples.lunch_timetable)))
           MoreSamples.wordy_values 0%nat).
  - vm_compute. reflexivity.
  - vm_compute. intros [H|[H|[]]]; discriminate.
Defined.

End FormMore.

(** ** The state of the page after a submission *)

Module PageMore.
Import Js Page.

(** X16: whatever the form values and whatever the server does, when
    [handleGenerateTimetable] is done the page is no longer loading and the
    timetable shown before is gone: the page holds no timetable, or the one
    the action just resolved with, and the latter only when the result had
    no error text, its data had days, periods and schedule, and the
    "Timetable Generated" toast was shown. Exactly one toast is added,
    except when the action resolves with neither an error text nor data:
    then nothing is shown at all. *)
Theorem handleGenerateTimetable_outcome
  (Server : Type)
  (generateTimetableAction :
     Flow.GenerateTimetableInput -> Server -> option ActionResult * Server)
  (values : Form.TimetableFormValues) (st : PageState) (srv : Server) :
  let after := fst (handleGenerateTimetable generateTimetableAction values st srv) in
  let outcome := fst (generateTimetableAction (build_input values) srv) in
  isLoading after = false
  /\ (timetableData after = None
      \/ exists result d,
           outcome = Some result
           /\ truthy_field (error result) = None
           /\ data result = Some d
           /\ Flow.out_days d <> None /\ Flow.out_periods d <> None
           /\ Flow.out_schedule d <> None
           /\ timetableData after = Some d
           /\ toasts after = toasts st ++ [TimetableGenerated])
  /\ ((exists t, toasts after = toasts st ++ [t])
      \/ (toasts after = toasts st
          /\ exists result,
               outcome = Some result
               /\ truthy_field (error result) = None
               /\ data result = None)).
Proof.
  unfold handleGenerateTimetable.
  destruct (negb _).
  - simpl. split; [reflexivity|]. split; [now left|]. left. eauto.
  - destruct (generateTimetableAction (build_input values) srv) as [[result|] srv'];
      simpl.
    + destruct (truthy_field (error result)) as [e|] eqn:He; simpl.
      * split; [reflexivity|]. split; [now left|]. left. eauto.
      * destruct (data result) as [d|] eqn:Hd; simpl.
        -- destruct (Flow.out_days d) as [ds|] eqn:Hds; simpl;
             [|split; [reflexivity|]; split; [now left|]; left; eauto].
           destruct (Flow.out_periods d) as [ps|] eqn:Hps; simpl;
             [|split; [reflexivity|]; split; [now left|]; left; eauto].
           destruct (Flow.out_schedule d) as [sch|] eqn:Hsch; simpl;
             [|split; [reflexivity|]; split; [now left|]; left; eauto].
           split; [reflexivity|]. split; [|left; eauto].
           right. exists result, d. rewrite Hds, Hps, Hsch.
           repeat split; try assumption; discriminate.
        -- split; [reflexivity|]. split; [now left|]. right.
           split; [reflexivity|]. exists result. auto.
    + split; [reflexivity|]. split; [now left|]. left. eauto.
Qed.

(** X17: a submission whose values satisfy [formSchema] always reaches the
    server: the handler calls the action once, with the input built from
    the values, and the "Input Error" toast of the page is not what it
    shows. *)
Theorem validated_submission_reaches_action
  (Server : Type)
  (generateTimetableAction :
     Flow.GenerateTimetableInput -> Server -> option ActionResult * Server)
  (values : Form.TimetableFormValues) (st : PageState) (srv : Server)
  (Hvalid : Form.formSchema values = true) :
  snd (handleGenerateTimetable generateTimetableAction values st srv)
  = snd (generateTimetableAction (build_input values) srv)
  /\ toasts (fst (handleGenerateTimetable generateTimetableAction values st srv))
     <> toasts st ++ [InputError].
Proof.
  pose proof (FormMore.formSchema_same_length values Hvalid) as Hlen.
  split; [now apply PageLaws.handleGenerateTimetable_calls_action|].
  unfold handleGenerateTimetable. rewrite (proj2 (Nat.eqb_eq _ _) Hlen). simpl.
  destruct (generateTimetableAction (build_input values) srv) as [[result|] srv'];
    simpl.
  - destruct (truthy_field (error result)) as [e|]; simpl.
    + intros H. apply app_inv_head in H. discriminate.
    + destruct (data result) as [d|]; simpl.
      * destruct (present (Flow.out_days d) && present (Flow.out_periods d)
                  && present (Flow.out_schedule d)); simpl;
          intros H; apply app_inv_head in H; discriminate.
      * intros H. rewrite <- (app_nil_r (toasts st)) in H at 1.
        apply app_inv_head in H. discriminate.
  - intros H. apply app_inv_head in H. discriminate.
Qed.

Lemma validated_submission_reaches_action_witness :
  snd (handleGenerateTimetable (MoreSamples.answering_action Samples.lunch_timetable)
         Samples.padded_values Samples.fresh_page 0%nat)
  = snd (MoreSamples.answering_action Samples.lunch_timetable
           (build_input Samples.padded_values) 0%nat)
  /\ toasts (fst (handleGenerateTimetable
                    (MoreSamples.answering_action Samples.lunch_timetable)
                    Samples.padded_values Samples.fresh_page 0%nat))
     <> toasts Samples.fresh_page ++ [InputError].
Proof.
  apply (validated_submission_reaches_action nat
           (MoreSamples.answering_action Samples.lunch_timetable)
           Samples.padded_values Samples.fresh_page 0%nat).
  vm_compute. reflexivity.
Defined.

Example silent_result_shows_nothing :
  handleGenerateTimetable MoreSamples.silent_action Samples.padded_values
    Samples.fresh_page 0%nat
  = ({| timetableData := None; isLoading := false; toasts := [] |}, 1%nat).
Proof. vm_compute. reflexivity. Qed.

End PageMore.
